(** * terraform-provider-mastodon: provider root, account data source,
      post resource and the identity function

    A shallow embedding of [internal/provider]: the provider [Configure]
    step, the [mastodon_account] data source, the [mastodon_post] resource
    and the [identity] provider function.

    Go values are modelled as follows.
    - a Go [string] is a [string] (a sequence of bytes);
    - [types.String] and [types.Bool] keep their three states (null, unknown,
      known value);
    - a pointer is an [option]; dereferencing [None] panics;
    - an [error] is an [option string] holding the text of [Error()];
    - [diag.Diagnostics] is a list, appended to without duplicates;
    - the Mastodon server, the go-mastodon client calls, the log and the
      record of remote calls live in a [World] that is threaded through a
      state monad whose second outcome is a Go panic. *)

From Stdlib Require Import String Ascii List Bool.
From stdpp Require Import base strings list gmap pretty.

Open Scope string_scope.

(** ** Framework values: [types.String], [types.Bool] *)

Module types.

Inductive String : Type :=
| StringNull
| StringUnknown
| StringValue (s : string).

Inductive Bool : Type :=
| BoolNull
| BoolUnknown
| BoolValue (b : bool).

End types.

Definition String_IsNull (v : types.String) : bool :=
  match v with types.StringNull => true | _ => false end.

Definition String_IsUnknown (v : types.String) : bool :=
  match v with types.StringUnknown => true | _ => false end.

(** [ValueString] is the empty string for a null or unknown value. *)
Definition String_ValueString (v : types.String) : string :=
  match v with types.StringValue s => s | _ => "" end.

Definition Bool_IsNull (v : types.Bool) : bool :=
  match v with types.BoolNull => true | _ => false end.

(** [ValueBool] is [false] for a null or unknown value. *)
Definition Bool_ValueBool (v : types.Bool) : bool :=
  match v with types.BoolValue b => b | _ => false end.

(** The textual form of a boolean attribute, as the acceptance tests
    compare it ([TestCheckResourceAttr ... "bot" "false"]). *)
Definition Bool_String (v : types.Bool) : string :=
  match v with
  | types.BoolNull => "<null>"
  | types.BoolUnknown => "<unknown>"
  | types.BoolValue true => "true"
  | types.BoolValue false => "false"
  end.

#[global] Instance types_String_eq_dec : EqDecision types.String.
Proof. solve_decision. Defined.

#[global] Instance types_Bool_eq_dec : EqDecision types.Bool.
Proof. solve_decision. Defined.

(** ** Diagnostics *)

Module path.
(** An attribute path; only root attributes occur in the provider. *)
Inductive Path : Type := Root (name : string).
End path.

#[global] Instance path_eq_dec : EqDecision path.Path.
Proof. solve_decision. Defined.

Module diag.

Inductive Severity : Type := SeverityError | SeverityWarning.

Record Diagnostic : Type := mkDiagnostic {
  Severity_of : Severity;
  Path_of : option path.Path;
  Summary : string;
  Detail : string
}.

Definition Diagnostics : Type := list Diagnostic.

End diag.

#[global] Instance Severity_eq_dec : EqDecision diag.Severity.
Proof. solve_decision. Defined.

#[global] Instance Diagnostic_eq_dec : EqDecision diag.Diagnostic.
Proof. solve_decision. Defined.

Definition NewErrorDiagnostic (summary detail : string) : diag.Diagnostic :=
  diag.mkDiagnostic diag.SeverityError None summary detail.

Definition NewAttributeErrorDiagnostic (p : path.Path) (summary detail : string)
  : diag.Diagnostic :=
  diag.mkDiagnostic diag.SeverityError (Some p) summary detail.

Definition Contains (diags : diag.Diagnostics) (d : diag.Diagnostic) : bool :=
  bool_decide (d ∈ diags).

(** [Append] skips a diagnostic that is already present. *)
Fixpoint Append (diags : diag.Diagnostics) (new : list diag.Diagnostic)
  : diag.Diagnostics :=
  match new with
  | [] => diags
  | d :: rest =>
      if Contains diags d then Append diags rest
      else Append (diags ++ [d])%list rest
  end.

Definition AddError (diags : diag.Diagnostics) (summary detail : string)
  : diag.Diagnostics :=
  Append diags [NewErrorDiagnostic summary detail].

Definition AddAttributeError (diags : diag.Diagnostics) (p : path.Path)
    (summary detail : string) : diag.Diagnostics :=
  Append diags [NewAttributeErrorDiagnostic p summary detail].

Definition is_error (d : diag.Diagnostic) : bool :=
  match diag.Severity_of d with
  | diag.SeverityError => true
  | diag.SeverityWarning => false
  end.

Definition HasError (diags : diag.Diagnostics) : bool :=
  existsb is_error diags.

(** ** The identity provider function *)

Module function.

(** A dynamically typed argument handed over by the host. *)
Inductive Value : Type :=
| StringArg (s : string)
| OtherArg (type_name : string).

Record FuncError : Type := mkFuncError { Text : string }.

Record RunRequest : Type := mkRunRequest { Arguments : list Value }.

Record RunResponse : Type := mkRunResponse {
  Error : option FuncError;
  Result : option string
}.

End function.

(** [req.Arguments.Get(ctx, &username, &server)]: the host framework's
    argument-count and argument-type validation for two string targets. *)
Definition Arguments_Get2 (args : list function.Value)
  : option function.FuncError * (string * string) :=
  match args with
  | [function.StringArg u; function.StringArg s] => (None, (u, s))
  | [_; _] =>
      (Some (function.mkFuncError "argument type mismatch"), ("", ""))
  | _ =>
      (Some (function.mkFuncError "argument count mismatch"), ("", ""))
  end.

Definition IdentityFunction_Run (req : function.RunRequest)
    (resp : function.RunResponse) : function.RunResponse :=
  let '(err, (username, server)) := Arguments_Get2 (function.Arguments req) in
  let resp := function.mkRunResponse err (function.Result resp) in
  match function.Error resp with
  | Some _ => resp
  | None =>
      function.mkRunResponse None (Some ("@" +:+ username +:+ "@" +:+ server))
  end.

(** ** go-mastodon records *)

Module time.
(** A [time.Time], carried with the text [String()] renders for it. *)
Record Time : Type := mkTime { String_of : string }.
End time.

Module mastodon.

Definition ID : Type := string.

Record Config : Type := mkConfig {
  Server : string;
  ClientID : string;
  ClientSecret : string;
  AccessToken : string
}.

Record Client : Type := mkClient { Config_of : Config }.

Record Account : Type := mkAccount {
  Account_ID : ID;
  Acct : string;
  DisplayName : string;
  Note : string;
  Locked : bool;
  Bot : bool
}.

Record Status : Type := mkStatus {
  Status_ID : ID;
  CreatedAt : time.Time;
  Status_Account : Account;
  Content : string;
  Status_Visibility : string;
  Status_Sensitive : bool
}.

Record Toot : Type := mkToot {
  Toot_Status : string;
  Toot_Visibility : string;
  Toot_Sensitive : bool
}.

Definition NewClient (config : Config) : Client := mkClient config.

End mastodon.

(** A Go [error]: [None] is [nil], [Some e] carries the text of [Error()]. *)
Definition error : Type := option string.

(** The remote calls the provider makes, as the server sees them. *)
Inductive Call : Type :=
| CallGetAccountCurrentUser (c : mastodon.Client)
| CallAccountLookup (c : mastodon.Client) (username : string)
| CallPostStatus (c : mastodon.Client) (toot : mastodon.Toot)
| CallGetStatus (c : mastodon.Client) (id : mastodon.ID)
| CallUpdateStatus (c : mastodon.Client) (toot : mastodon.Toot) (id : mastodon.ID)
| CallDeleteStatus (c : mastodon.Client) (id : mastodon.ID).

(** The Mastodon server behind the go-mastodon client: an external
    collaborator.  Each call steps the server and answers with the pair
    (pointer, error) that the Go method returns. *)
Class MastodonAPI (Server : Type) : Type := {
  api_GetAccountCurrentUser :
    mastodon.Client -> Server -> Server * (option mastodon.Account * error);
  api_AccountLookup :
    mastodon.Client -> string -> Server ->
    Server * (option mastodon.Account * error);
  api_PostStatus :
    mastodon.Client -> mastodon.Toot -> Server ->
    Server * (option mastodon.Status * error);
  api_GetStatus :
    mastodon.Client -> mastodon.ID -> Server ->
    Server * (option mastodon.Status * error);
  api_UpdateStatus :
    mastodon.Client -> mastodon.Toot -> mastodon.ID -> Server ->
    Server * (option mastodon.Status * error);
  api_DeleteStatus :
    mastodon.Client -> mastodon.ID -> Server -> Server * error
}.

(** ** The world and the monad of provider operations *)

Module tflog.
Inductive Level : Type := LevelTrace | LevelDebug | LevelError.
Record Entry : Type := mkEntry { Level_of : Level; Message : string }.

(** The logging context: fields set on it and the keys whose values are
    masked in the output. *)
Record Ctx : Type := mkCtx {
  Fields : list (string * string);
  Masked : list string
}.

Definition Background : Ctx := mkCtx [] [].

Definition SetField (ctx : Ctx) (key value : string) : Ctx :=
  mkCtx ((key, value) :: Fields ctx) (Masked ctx).

Definition MaskFieldValuesWithFieldKeys (ctx : Ctx) (key : string) : Ctx :=
  mkCtx (Fields ctx) (key :: Masked ctx).
End tflog.

Record World (Server : Type) : Type := mkWorld {
  server : Server;
  calls : list Call;
  logs : list tflog.Entry
}.
Arguments mkWorld {Server} _ _ _.
Arguments server {Server} _.
Arguments calls {Server} _.
Arguments logs {Server} _.

(** The outcome of running Go code: it returns, or it panics. *)
Inductive Res (W A : Type) : Type :=
| Returned (a : A) (w : W)
| Panicked (msg : string) (w : W).
Arguments Returned {W A} _ _.
Arguments Panicked {W A} _ _.

Definition M (Server : Type) (A : Type) : Type :=
  World Server -> Res (World Server) A.

#[global] Instance M_ret {Server} : MRet (M Server) :=
  fun A a w => Returned a w.

#[global] Instance M_bind {Server} : MBind (M Server) :=
  fun A B f m w =>
    match m w with
    | Returned a w' => f a w'
    | Panicked msg w' => Panicked msg w'
    end.

Definition panic {Server A} (msg : string) : M Server A :=
  fun w => Panicked msg w.

Definition nil_dereference : string :=
  "runtime error: invalid memory address or nil pointer dereference".

(** Reading a field through a pointer. *)
Definition deref {Server A} (p : option A) : M Server A :=
  match p with
  | Some a => mret a
  | None => panic nil_dereference
  end.

Definition log {Server} (l : tflog.Level) (msg : string) : M Server unit :=
  fun w => Returned tt (mkWorld (server w) (calls w)
                                (logs w ++ [tflog.mkEntry l msg])%list).

Definition tflog_Debug {Server} := @log Server tflog.LevelDebug.
Definition tflog_Trace {Server} := @log Server tflog.LevelTrace.
Definition tflog_Error {Server} := @log Server tflog.LevelError.

(** A remote call: it is recorded, and the server steps. *)
Definition remote {Server A} (c : Call) (step : Server -> Server * A)
  : M Server A :=
  fun w =>
    let '(s', a) := step (server w) in
    Returned a (mkWorld s' (calls w ++ [c])%list (logs w)).

Section Client.

Context {Server : Type} `{MastodonAPI Server}.

(** Methods of [*mastodon.Client]; a nil receiver is dereferenced by the
    method, which panics. *)
Definition Client_GetAccountCurrentUser (c : option mastodon.Client)
  : M Server (option mastodon.Account * error) :=
  c ← deref c;
  remote (CallGetAccountCurrentUser c) (api_GetAccountCurrentUser c).

Definition Client_AccountLookup (c : option mastodon.Client) (username : string)
  : M Server (option mastodon.Account * error) :=
  c ← deref c;
  remote (CallAccountLookup c username) (api_AccountLookup c username).

Definition Client_PostStatus (c : option mastodon.Client) (toot : mastodon.Toot)
  : M Server (option mastodon.Status * error) :=
  c ← deref c;
  remote (CallPostStatus c toot) (api_PostStatus c toot).

Definition Client_GetStatus (c : option mastodon.Client) (id : mastodon.ID)
  : M Server (option mastodon.Status * error) :=
  c ← deref c;
  remote (CallGetStatus c id) (api_GetStatus c id).

Definition Client_UpdateStatus (c : option mastodon.Client)
    (toot : mastodon.Toot) (id : mastodon.ID)
  : M Server (option mastodon.Status * error) :=
  c ← deref c;
  remote (CallUpdateStatus c toot id) (api_UpdateStatus c toot id).

Definition Client_DeleteStatus (c : option mastodon.Client) (id : mastodon.ID)
  : M Server error :=
  c ← deref c;
  remote (CallDeleteStatus c id) (api_DeleteStatus c id).

End Client.

(** ** What the host hands to the adapters *)

(** A Go [any]: nil, a [*mastodon.Client] (itself possibly a nil pointer),
    or a value of another dynamic type, known by the name [%T] prints. *)
Inductive any : Type :=
| any_nil
| any_Client (c : option mastodon.Client)
| any_other (type_name : string).

(** [fmt.Sprintf("%T", v)] *)
Definition type_name_of (v : any) : string :=
  match v with
  | any_nil => "<nil>"
  | any_Client _ => "*mastodon.Client"
  | any_other n => n
  end.

(** The result of [Get(ctx, &data)] on a configuration, plan or state:
    the model it fills in and the diagnostics of the decoding. *)
Record Decoded (A : Type) : Type := mkDecoded {
  Get_data : A;
  Get_diags : diag.Diagnostics
}.
Arguments mkDecoded {A} _ _.
Arguments Get_data {A} _.
Arguments Get_diags {A} _.

(** [os.Getenv]: the empty string when the variable is not set. *)
Definition Getenv (env : gmap string string) (key : string) : string :=
  default "" (env !! key).

(** ** Provider root *)

Record MastodonProviderModel : Type := mkMastodonProviderModel {
  Host : types.String;
  ClientID : types.String;
  ClientSecret : types.String;
  Email : types.String;
  Password : types.String;
  AccessToken : types.String
}.

Module provider.

Record ConfigureRequest : Type := mkConfigureRequest {
  Config : Decoded MastodonProviderModel
}.

Record ConfigureResponse : Type := mkConfigureResponse {
  Diagnostics : diag.Diagnostics;
  DataSourceData : any;
  ResourceData : any
}.

(** The response the host passes in. *)
Definition empty : ConfigureResponse := mkConfigureResponse [] any_nil any_nil.

End provider.

(** The six local variables of [Configure] after resolution. *)
Record Resolved : Type := mkResolved {
  host : string;
  client_id : string;
  client_secret : string;
  user_email : string;
  user_password : string;
  access_token : string
}.

Definition unknown_detail (what var : string) : string :=
  "The provider cannot create the Mastodon API client as there is an unknown configuration value for the "
  +:+ what +:+ ". "
  +:+ "Either target apply the source of the value first, set the value statically in the configuration, or use the "
  +:+ var +:+ " environment variable.".

Definition neither_detail : string :=
  "The provider cannot create the Mastodon API client as neither the Access Token or the Username and Password fields are set.".

(** [Configure], from the first unknown-value check down to the check of
    the credential pair: the resolved locals and the
    diagnostics collected so far. *)
Definition Configure_resolve (env : gmap string string)
    (data : MastodonProviderModel) (diags : diag.Diagnostics)
  : Resolved * diag.Diagnostics :=
  let diags :=
    if String_IsUnknown (Host data) then
      AddAttributeError diags (path.Root "host")
        "Unknown Mastodon API Host"
        (unknown_detail "Mastodon API host" "MASTODON_HOST")
    else diags in
  let host := Getenv env "MASTODON_HOST" in
  let host :=
    if negb (String_IsNull (Host data)) then String_ValueString (Host data)
    else host in
  let diags :=
    if String.eqb host "" then
      AddAttributeError diags (path.Root "user-access-token")
        "Missing Mastodon Credentials"
        "The provider cannot create the Mastodon API client as the Host is not set."
    else diags in

  let diags :=
    if String_IsUnknown (ClientID data) then
      AddAttributeError diags (path.Root "client-id")
        "Unknown Mastodon Client ID"
        (unknown_detail "Mastodon Client ID" "MASTODON_CLIENT_ID")
    else diags in
  let client_id := Getenv env "MASTODON_CLIENT_ID" in
  let client_id :=
    if negb (String_IsNull (ClientID data)) then String_ValueString (ClientID data)
    else client_id in
  let diags :=
    if String.eqb client_id "" then
      AddAttributeError diags (path.Root "user-access-token")
        "Missing Mastodon Credentials"
        "The provider cannot create the Mastodon API client as the Client ID is not set."
    else diags in

  let diags :=
    if String_IsUnknown (ClientSecret data) then
      AddAttributeError diags (path.Root "client-secret")
        "Unknown Mastodon Client Secret"
        (unknown_detail "Mastodon Client Secret" "MASTODON_CLIENT_SECRET")
    else diags in
  let client_secret := Getenv env "MASTODON_CLIENT_SECRET" in
  let client_secret :=
    if negb (String_IsNull (ClientSecret data))
    then String_ValueString (ClientSecret data)
    else client_secret in
  let diags :=
    if String.eqb client_secret "" then
      AddAttributeError diags (path.Root "user-access-token")
        "Missing Mastodon Credentials"
        "The provider cannot create the Mastodon API client as the Client Secret is not set."
    else diags in

  let diags :=
    if String_IsUnknown (Email data) then
      AddAttributeError diags (path.Root "user-email")
        "Unknown Mastodon User Email"
        (unknown_detail "Mastodon User Email" "MASTODON_USER_EMAIL")
    else diags in
  let user_email := Getenv env "MASTODON_USER_EMAIL" in
  let user_email :=
    if negb (String_IsNull (Email data)) then String_ValueString (Email data)
    else user_email in

  let diags :=
    if String_IsUnknown (Password data) then
      AddAttributeError diags (path.Root "user-password")
        "Unknown Mastodon User Password"
        (unknown_detail "Mastodon User Password" "MASTODON_USER_PASSWORD")
    else diags in
  let user_password := Getenv env "MASTODON_USER_PASSWORD" in
  let user_password :=
    if negb (String_IsNull (Password data)) then String_ValueString (Password data)
    else user_password in

  let diags :=
    if String_IsUnknown (AccessToken data) then
      AddAttributeError diags (path.Root "user-access-token")
        "Unknown Mastodon User Password"
        (unknown_detail "Mastodon User Password" "MASTODON_USER_PASSWORD")
    else diags in
  let access_token := Getenv env "MASTODON_ACCESS_TOKEN" in
  let access_token :=
    if negb (String_IsNull (AccessToken data))
    then String_ValueString (AccessToken data)
    else access_token in

  let diags :=
    if String.eqb access_token ""
       && (String.eqb user_email "" || String.eqb user_password "") then
      AddAttributeError diags (path.Root "user-access-token")
        "Missing Mastodon Credentials" neither_detail
    else diags in
  (mkResolved host client_id client_secret user_email user_password access_token,
   diags).

Section Provider.

Context {Server : Type} `{MastodonAPI Server}.

Definition with_Diagnostics (resp : provider.ConfigureResponse)
    (diags : diag.Diagnostics) : provider.ConfigureResponse :=
  provider.mkConfigureResponse diags
    (provider.DataSourceData resp) (provider.ResourceData resp).

Definition MastodonProvider_Configure (env : gmap string string)
    (req : provider.ConfigureRequest) (resp : provider.ConfigureResponse)
  : M Server provider.ConfigureResponse :=
  let ctx := tflog.Background in
  let data := Get_data (provider.Config req) in
  tflog_Debug "mastodon_provider configure" ;;
  let diags :=
    Append (provider.Diagnostics resp) (Get_diags (provider.Config req)) in
  let '(r, diags) := Configure_resolve env data diags in
  if HasError diags then mret (with_Diagnostics resp diags)
  else
    config ←
      (if negb (String.eqb (access_token r) "") then
         tflog_Debug "mastodon_provider configure with access token" ;;
         mret (mastodon.mkConfig (host r) (client_id r) (client_secret r)
                                 (access_token r))
       else
         tflog_Debug "mastodon_provider configure without access token" ;;
         mret (mastodon.mkConfig (host r) (client_id r) (client_secret r) ""));
    let c := Some (mastodon.NewClient config) in
    '(user, err) ← Client_GetAccountCurrentUser c;
    diags ←
      match err with
      | Some e =>
          tflog_Error ("GetAccountCurrentUser Error: " +:+ e) ;;
          mret (AddError diags
                  "Mastodon GetAccountCurrentUser Failed, API is not usable." e)
      | None => mret diags
      end;
    user ← deref user;
    tflog_Debug ("mastodon_provider current user: " +:+ mastodon.Acct user) ;;
    let '(ctx, diags) :=
      if negb (String.eqb (access_token r) "") then
        let ctx := tflog.SetField ctx "mastodon_access_token" (access_token r) in
        let ctx := tflog.MaskFieldValuesWithFieldKeys ctx "mastodon_access_token" in
        (ctx, diags)
      else if negb (String.eqb (user_email r) "")
              && negb (String.eqb (user_password r) "") then
        let ctx := tflog.SetField ctx "mastodon_user_email" (user_email r) in
        let ctx := tflog.SetField ctx "mastodon_user_password" (user_password r) in
        let ctx := tflog.MaskFieldValuesWithFieldKeys ctx "mastodon_user_password" in
        (ctx, diags)
      else
        (ctx, AddAttributeError diags (path.Root "user-access-token")
                "Missing Mastodon Credentials" neither_detail) in
    if HasError diags then mret (with_Diagnostics resp diags)
    else mret (provider.mkConfigureResponse diags (any_Client c) (any_Client c)).

End Provider.

(** ** A reference server

    An in-memory Mastodon server used to run the adapters on concrete
    inputs: it stores the statuses it is given, renders their content as a
    paragraph, and knows a fixed set of accounts. *)

Module RefServer.

Record State : Type := mkState {
  token_ok : bool;
  accounts : list (string * mastodon.Account);
  statuses : list mastodon.Status;
  next_id : nat
}.

Definition me : mastodon.Account :=
  mastodon.mkAccount "1" "tedivm" "Robert" "" false false.

Definition bot_account : mastodon.Account :=
  mastodon.mkAccount "7" "newsbot" "News Bot" "Posts headlines." false true.

Definition plain_account : mastodon.Account :=
  mastodon.mkAccount "8" "user" "A User" "Hello." false false.

Definition id_of_nat (n : nat) : mastodon.ID := pretty n.

Fixpoint find_status (id : mastodon.ID) (l : list mastodon.Status)
  : option mastodon.Status :=
  match l with
  | [] => None
  | s :: rest =>
      if String.eqb (mastodon.Status_ID s) id then Some s
      else find_status id rest
  end.

Fixpoint find_account (name : string) (l : list (string * mastodon.Account))
  : option mastodon.Account :=
  match l with
  | [] => None
  | (n, a) :: rest =>
      if String.eqb n name then Some a else find_account name rest
  end.

Definition render (content : string) : string := "<p>" +:+ content +:+ "</p>".

Definition status_of (id : mastodon.ID) (t : mastodon.Toot) : mastodon.Status :=
  mastodon.mkStatus id (time.mkTime "2024-01-01 00:00:00 +0000 UTC") me
    (render (mastodon.Toot_Status t)) (mastodon.Toot_Visibility t)
    (mastodon.Toot_Sensitive t).

Definition not_found : string := "bad request: 404 Not Found: Record not found".
Definition unauthorized : string :=
  "bad request: 401 Unauthorized: The access token is invalid".

#[global] Instance api : MastodonAPI State := {
  api_GetAccountCurrentUser c s :=
    if token_ok s then (s, (Some me, None))
    else (s, (None, Some unauthorized));
  api_AccountLookup c name s :=
    match find_account name (accounts s) with
    | Some a => (s, (Some a, None))
    | None => (s, (None, Some not_found))
    end;
  api_PostStatus c t s :=
    let st := status_of (id_of_nat (next_id s)) t in
    (mkState (token_ok s) (accounts s) (st :: statuses s) (S (next_id s)),
     (Some st, None));
  api_GetStatus c id s :=
    match find_status id (statuses s) with
    | Some st => (s, (Some st, None))
    | None => (s, (None, Some not_found))
    end;
  api_UpdateStatus c t id s :=
    match find_status id (statuses s) with
    | Some _ =>
        let st := status_of id t in
        (mkState (token_ok s) (accounts s) (st :: statuses s) (next_id s),
         (Some st, None))
    | None => (s, (None, Some not_found))
    end;
  api_DeleteStatus c id s :=
    match find_status id (statuses s) with
    | Some _ =>
        (mkState (token_ok s) (accounts s)
           (filter (fun st => negb (String.eqb (mastodon.Status_ID st) id))
                   (statuses s))
           (next_id s), None)
    | None => (s, Some not_found)
    end
}.

Definition initial : State :=
  mkState true
    [("user@host", plain_account); ("newsbot@host", bot_account)] [] 100.

Definition world (s : State) : World State := mkWorld s [] [].

End RefServer.

(** The type assertion of [req.ProviderData] to a [mastodon.Client]
    pointer: the asserted value and the [ok] flag. *)
Definition assert_Client (v : any) : option mastodon.Client * bool :=
  match v with
  | any_Client c => (c, true)
  | _ => (None, false)
  end.

Definition unexpected_type_detail (v : any) : string :=
  "Expected *mastodon.Client, got: " +:+ type_name_of v
  +:+ ". Please report this issue to the provider developers.".

(** ** Data source adapter: [mastodon_account] *)

Module AccountDataSource.

Record AccountDataSource : Type := mkAccountDataSource {
  client : option mastodon.Client
}.

Record AccountDataSourceModel : Type := mkModel {
  Username : types.String;
  Id : types.String;
  DisplayName : types.String;
  Note : types.String;
  Locked : types.Bool;
  Bot : types.Bool
}.

Record ConfigureRequest : Type := mkConfigureRequest { ProviderData : any }.

Record ConfigureResponse : Type := mkConfigureResponse {
  Configure_Diagnostics : diag.Diagnostics
}.

Record ReadRequest : Type := mkReadRequest {
  Config : Decoded AccountDataSourceModel
}.

(** [State] is [None] while nothing has been written to it.  [State.Set] of
    a model that matches the schema stores it and reports nothing. *)
Record ReadResponse : Type := mkReadResponse {
  State : option AccountDataSourceModel;
  Diagnostics : diag.Diagnostics
}.

Definition NewAccountDataSource : AccountDataSource := mkAccountDataSource None.

Definition Configure (d : AccountDataSource) (req : ConfigureRequest)
    (resp : ConfigureResponse) : AccountDataSource * ConfigureResponse :=
  match ProviderData req with
  | any_nil => (d, resp)
  | _ =>
      let '(client, ok) := assert_Client (ProviderData req) in
      if negb ok then
        (d, mkConfigureResponse
              (AddError (Configure_Diagnostics resp)
                 "Unexpected Data Source Configure Type"
                 (unexpected_type_detail (ProviderData req))))
      else (mkAccountDataSource client, resp)
  end.

Section Read.

Context {Server : Type} `{MastodonAPI Server}.

Definition Read (d : AccountDataSource) (req : ReadRequest) (resp : ReadResponse)
  : M Server ReadResponse :=
  tflog_Debug "mastodon_account data source read" ;;
  let data := Get_data (Config req) in
  let resp :=
    mkReadResponse (State resp)
      (Append (Diagnostics resp) (Get_diags (Config req))) in
  if HasError (Diagnostics resp) then mret resp
  else
    '(account, err) ←
      Client_AccountLookup (client d) (String_ValueString (Username data));
    match err with
    | Some e =>
        mret (mkReadResponse (State resp)
                (AddError (Diagnostics resp) "Failed to lookup account"
                   ("Failed to lookup account: " +:+ e)))
    | None =>
        account ← deref account;
        let data :=
          mkModel (Username data)
            (types.StringValue (mastodon.Account_ID account))
            (types.StringValue (mastodon.DisplayName account))
            (types.StringValue (mastodon.Note account))
            (types.BoolValue (mastodon.Locked account))
            (types.BoolValue (mastodon.Bot account)) in
        tflog_Trace "read the mastodon_account data source" ;;
        mret (mkReadResponse (Some data) (Diagnostics resp))
    end.

End Read.

(** [resp.TypeName = req.ProviderTypeName + "_account"] *)
Definition Metadata (ProviderTypeName : string) : string :=
  ProviderTypeName +:+ "_account".

End AccountDataSource.

(** ** The sanitizer

    [bluemonday] is a third-party library: the adapters are written
    against its interface, a policy and the function that applies it. *)

Module bluemonday.

Class Library : Type := {
  Policy : Type;
  NewPolicy : Policy;
  Sanitize : Policy -> string -> string
}.

End bluemonday.

(** ** Resource adapter: [mastodon_post] *)

Module PostResource.

Record PostResource : Type := mkPostResource {
  client : option mastodon.Client
}.

Record PostResourceModel : Type := mkModel {
  Id : types.String;
  CreatedAt : types.String;
  Account : types.String;
  Content : types.String;
  Visibility : types.String;
  Sensitive : types.Bool;
  PreserveOnDestroy : types.Bool
}.

Record ConfigureRequest : Type := mkConfigureRequest { ProviderData : any }.

Record ConfigureResponse : Type := mkConfigureResponse {
  Configure_Diagnostics : diag.Diagnostics
}.

(** Create and Update decode the plan; Read and Delete decode the prior
    state. *)
Record Request : Type := mkRequest { Source : Decoded PostResourceModel }.

(** [State] is [None] for an absent resource.  For Read the host passes in
    a response that already holds the prior state. *)
Record Response : Type := mkResponse {
  State : option PostResourceModel;
  Diagnostics : diag.Diagnostics
}.

Definition NewPostResource : PostResource := mkPostResource None.

Definition Configure (r : PostResource) (req : ConfigureRequest)
    (resp : ConfigureResponse) : PostResource * ConfigureResponse :=
  match ProviderData req with
  | any_nil => (r, resp)
  | _ =>
      let '(client, ok) := assert_Client (ProviderData req) in
      if negb ok then
        (r, mkConfigureResponse
              (AddError (Configure_Diagnostics resp)
                 "Unexpected Resource Configure Type"
                 (unexpected_type_detail (ProviderData req))))
      else (mkPostResource client, resp)
  end.

Section Lifecycle.

Context {Server : Type} `{MastodonAPI Server} `{bluemonday.Library}.

Definition toot_of (data : PostResourceModel) : mastodon.Toot :=
  mastodon.mkToot (String_ValueString (Content data))
    (String_ValueString (Visibility data))
    (Bool_ValueBool (Sensitive data)).

(** The six assignments that copy the returned status into the model. *)
Definition with_post (data : PostResourceModel) (p : bluemonday.Policy)
    (post : mastodon.Status) : PostResourceModel :=
  mkModel
    (types.StringValue (mastodon.Status_ID post))
    (types.StringValue (time.String_of (mastodon.CreatedAt post)))
    (types.StringValue (mastodon.Account_ID (mastodon.Status_Account post)))
    (types.StringValue (bluemonday.Sanitize p (mastodon.Content post)))
    (types.StringValue (mastodon.Status_Visibility post))
    (types.BoolValue (mastodon.Status_Sensitive post))
    (PreserveOnDestroy data).

Definition decode (req : Request) (resp : Response) : Response :=
  mkResponse (State resp)
    (Append (Diagnostics resp) (Get_diags (Source req))).

Definition client_error (resp : Response) (detail : string) : Response :=
  mkResponse (State resp) (AddError (Diagnostics resp) "Client Error" detail).

Definition Create (r : PostResource) (req : Request) (resp : Response)
  : M Server Response :=
  let data := Get_data (Source req) in
  let resp := decode req resp in
  if HasError (Diagnostics resp) then mret resp
  else
    let toot := toot_of data in
    '(post, err) ← Client_PostStatus (client r) toot;
    match err with
    | Some e =>
        mret (client_error resp ("Unable to create post, got error: " +:+ e))
    | None =>
        let p := bluemonday.NewPolicy in
        post ← deref post;
        let data := with_post data p post in
        tflog_Trace "created a resource" ;;
        mret (mkResponse (Some data) (Diagnostics resp))
    end.

Definition Read (r : PostResource) (req : Request) (resp : Response)
  : M Server Response :=
  let data := Get_data (Source req) in
  let resp := decode req resp in
  if HasError (Diagnostics resp) then mret resp
  else
    '(post, err) ← Client_GetStatus (client r) (String_ValueString (Id data));
    match err with
    | Some e =>
        mret (client_error resp ("Unable to read post, got error: " +:+ e))
    | None =>
        let p := bluemonday.NewPolicy in
        post ← deref post;
        let data := with_post data p post in
        let data :=
          if Bool_IsNull (PreserveOnDestroy data) then
            mkModel (Id data) (CreatedAt data) (Account data) (Content data)
              (Visibility data) (Sensitive data) (types.BoolValue false)
          else data in
        mret (mkResponse (Some data) (Diagnostics resp))
    end.

Definition Update (r : PostResource) (req : Request) (resp : Response)
  : M Server Response :=
  let data := Get_data (Source req) in
  let resp := decode req resp in
  if HasError (Diagnostics resp) then mret resp
  else
    let toot := toot_of data in
    '(post, err) ←
      Client_UpdateStatus (client r) toot (String_ValueString (Id data));
    match err with
    | Some e =>
        mret (client_error resp ("Unable to read post, got error: " +:+ e))
    | None =>
        let p := bluemonday.NewPolicy in
        post ← deref post;
        let data := with_post data p post in
        mret (mkResponse (Some data) (Diagnostics resp))
    end.

Definition Delete (r : PostResource) (req : Request) (resp : Response)
  : M Server Response :=
  let data := Get_data (Source req) in
  let resp := decode req resp in
  if HasError (Diagnostics resp) then mret resp
  else if Bool_ValueBool (PreserveOnDestroy data) then
    tflog_Debug "preserve_on_destroy is enabled: preserving post on server." ;;
    mret resp
  else
    err ← Client_DeleteStatus (client r) (String_ValueString (Id data));
    match err with
    | Some e =>
        mret (client_error resp ("Unable to delete post, got error: " +:+ e))
    | None => mret resp
    end.

End Lifecycle.

(** [resp.TypeName = req.ProviderTypeName + "_post"] *)
Definition Metadata (ProviderTypeName : string) : string :=
  ProviderTypeName +:+ "_post".

Record ImportStateRequest : Type := mkImportStateRequest { ID : string }.

(** The state an import starts from: every attribute null. *)
Definition null_model : PostResourceModel :=
  mkModel types.StringNull types.StringNull types.StringNull types.StringNull
    types.StringNull types.BoolNull types.BoolNull.

(** [resp.State.SetAttribute(ctx, path, value)] for a string value: the
    attribute is found by the [tfsdk] tag of the model; a state that was
    null becomes an object whose other attributes are null; a path that
    names no string attribute is an error. *)
Definition SetAttribute (resp : Response) (p : path.Path) (value : string)
  : Response :=
  let m := match State resp with Some m => m | None => null_model end in
  let v := types.StringValue value in
  let '(path.Root name) := p in
  if String.eqb name "id" then
    mkResponse
      (Some (mkModel v (CreatedAt m) (Account m) (Content m) (Visibility m)
               (Sensitive m) (PreserveOnDestroy m)))
      (Diagnostics resp)
  else if String.eqb name "created_at" then
    mkResponse
      (Some (mkModel (Id m) v (Account m) (Content m) (Visibility m)
               (Sensitive m) (PreserveOnDestroy m)))
      (Diagnostics resp)
  else if String.eqb name "account" then
    mkResponse
      (Some (mkModel (Id m) (CreatedAt m) v (Content m) (Visibility m)
               (Sensitive m) (PreserveOnDestroy m)))
      (Diagnostics resp)
  else if String.eqb name "content" then
    mkResponse
      (Some (mkModel (Id m) (CreatedAt m) (Account m) v (Visibility m)
               (Sensitive m) (PreserveOnDestroy m)))
      (Diagnostics resp)
  else if String.eqb name "visibility" then
    mkResponse
      (Some (mkModel (Id m) (CreatedAt m) (Account m) (Content m) v
               (Sensitive m) (PreserveOnDestroy m)))
      (Diagnostics resp)
  else
    mkResponse (State resp)
      (AddAttributeError (Diagnostics resp) p "State Write Error"
         "The path does not name a string attribute of the resource.").

(** [resource.ImportStatePassthroughID] *)
Definition ImportStatePassthroughID (attrPath : path.Path)
    (req : ImportStateRequest) (resp : Response) : Response :=
  SetAttribute resp attrPath (ID req).

Definition ImportState (r : PostResource) (req : ImportStateRequest)
    (resp : Response) : Response :=
  ImportStatePassthroughID (path.Root "id") req resp.

End PostResource.

(** ** Provider metadata and schema *)

Record MastodonProvider : Type := mkMastodonProvider { version : string }.

Definition New (version : string) : unit -> MastodonProvider :=
  fun _ => mkMastodonProvider version.

Record MetadataResponse : Type := mkMetadataResponse {
  TypeName : string;
  Version : string
}.

Definition MastodonProvider_Metadata (p : MastodonProvider)
    (resp : MetadataResponse) : MetadataResponse :=
  mkMetadataResponse "mastodon" (version p).

Module schema.

Record StringAttribute : Type := mkStringAttribute {
  MarkdownDescription : string;
  Optional : bool;
  Sensitive : bool;
  DeprecationMessage : string
}.

End schema.

(** The attributes of the provider block, by name. *)
Definition MastodonProvider_Schema : gmap string schema.StringAttribute :=
  <["host" := schema.mkStringAttribute
      "Mastodon host to connect to." true false ""]>
  (<["client_id" := schema.mkStringAttribute
      "Client ID for Mastodon App." true false ""]>
  (<["client_secret" := schema.mkStringAttribute
      "Client Secret for Mastodon App." true false ""]>
  (<["email" := schema.mkStringAttribute
      "Username to connect to the server as." true false ""]>
  (<["password" := schema.mkStringAttribute
      "Password to use for connecting to the server." true true ""]>
  (<["access_token" := schema.mkStringAttribute
      "Password to use for connecting to the server." true true
      "Use email and password instead."]> ∅))))).

(** ** The acceptance-test precheck *)

(** [assert.NotEmpty(t, object, msg)]: records a failure and goes on. *)
Definition assert_NotEmpty (failures : list string) (object msg : string)
  : list string :=
  if String.eqb object "" then (failures ++ [msg])%list else failures.

(** [testAccPreCheck]: the failures it records, in order. *)
Definition testAccPreCheck (env : gmap string string) : list string :=
  let t := [] in
  let client_host := Getenv env "MASTODON_HOST" in
  let t := assert_NotEmpty t client_host
             "MASTODON_HOST must be set for acceptance tests" in
  let client_id := Getenv env "MASTODON_CLIENT_ID" in
  let t := assert_NotEmpty t client_id
             "MASTODON_CLIENT_ID must be set for acceptance tests" in
  let client_secret := Getenv env "MASTODON_CLIENT_SECRET" in
  let t := assert_NotEmpty t client_secret
             "MASTODON_CLIENT_SECRET must be set for acceptance tests" in
  let client_token := Getenv env "MASTODON_ACCESS_TOKEN" in
  let t := assert_NotEmpty t client_token
             "MASTODON_ACCESS_TOKEN must be set for acceptance tests" in
  t.

(** ** The sanitization policy *)

(** Modelled from the spec: the sanitization policy applied by the post
    resource.  The adapter calls [bluemonday.NewPolicy().Sanitize], a
    third-party library whose code is not part of the provider; the
    specification describes it as "an HTML-stripping transformation applied
    to remotely-sourced text".  [strip] removes markup: every run of
    characters from a "<" up to and including the next ">" (or up to the end
    of the text when no ">" follows), and copies all other characters. *)
Fixpoint strip (in_tag : bool) (s : string) : string :=
  match s with
  | EmptyString => EmptyString
  | String c rest =>
      if in_tag then
        if Ascii.eqb c ">" then strip false rest else strip true rest
      else
        if Ascii.eqb c "<" then strip true rest
        else String c (strip false rest)
  end.

Definition strip_html (s : string) : string := strip false s.


#[global] Instance stripping_policy : bluemonday.Library := {
  bluemonday.Policy := unit;
  bluemonday.NewPolicy := tt;
  bluemonday.Sanitize := fun _ => strip_html
}.

(** ** Vocabulary for the properties of [Configure] *)

(** The six configuration fields. *)
Inductive Field : Type :=
| FieldHost | FieldClientID | FieldClientSecret
| FieldEmail | FieldPassword | FieldAccessToken.

Definition config_value (f : Field) (data : MastodonProviderModel) : types.String :=
  match f with
  | FieldHost => Host data
  | FieldClientID => ClientID data
  | FieldClientSecret => ClientSecret data
  | FieldEmail => Email data
  | FieldPassword => Password data
  | FieldAccessToken => AccessToken data
  end.

Definition env_var (f : Field) : string :=
  match f with
  | FieldHost => "MASTODON_HOST"
  | FieldClientID => "MASTODON_CLIENT_ID"
  | FieldClientSecret => "MASTODON_CLIENT_SECRET"
  | FieldEmail => "MASTODON_USER_EMAIL"
  | FieldPassword => "MASTODON_USER_PASSWORD"
  | FieldAccessToken => "MASTODON_ACCESS_TOKEN"
  end.

Definition resolved_value (f : Field) (r : Resolved) : string :=
  match f with
  | FieldHost => host r
  | FieldClientID => client_id r
  | FieldClientSecret => client_secret r
  | FieldEmail => user_email r
  | FieldPassword => user_password r
  | FieldAccessToken => access_token r
  end.

(** Configuration first, environment second. *)
Definition resolve_field (env : gmap string string)
    (data : MastodonProviderModel) (f : Field) : string :=
  if negb (String_IsNull (config_value f data))
  then String_ValueString (config_value f data)
  else Getenv env (env_var f).

Definition resolve_all (env : gmap string string)
    (data : MastodonProviderModel) : Resolved :=
  mkResolved (resolve_field env data FieldHost)
    (resolve_field env data FieldClientID)
    (resolve_field env data FieldClientSecret)
    (resolve_field env data FieldEmail)
    (resolve_field env data FieldPassword)
    (resolve_field env data FieldAccessToken).

Definition all_fields : list Field :=
  [FieldHost; FieldClientID; FieldClientSecret;
   FieldEmail; FieldPassword; FieldAccessToken].

Definition no_unknown (data : MastodonProviderModel) : bool :=
  forallb (fun f => negb (String_IsUnknown (config_value f data))) all_fields.

Definition nonempty (s : string) : bool := negb (String.eqb s "").

(** A credential set is complete when it holds an access token or both an
    email and a password. *)
Definition has_credentials (r : Resolved) : bool :=
  nonempty (access_token r)
  || (nonempty (user_email r) && nonempty (user_password r)).

Definition valid_combination (r : Resolved) : bool :=
  nonempty (host r) && nonempty (client_id r) && nonempty (client_secret r)
  && has_credentials r.

(** What a resolved credential set may lack. *)
Inductive Missing : Type :=
| MissingHost | MissingClientID | MissingClientSecret | MissingCredentials.

Definition is_missing (m : Missing) (r : Resolved) : bool :=
  match m with
  | MissingHost => String.eqb (host r) ""
  | MissingClientID => String.eqb (client_id r) ""
  | MissingClientSecret => String.eqb (client_secret r) ""
  | MissingCredentials => negb (has_credentials r)
  end.

(** The body of the diagnostic that reports a missing item. *)
Definition missing_detail (m : Missing) : string :=
  match m with
  | MissingHost =>
      "The provider cannot create the Mastodon API client as the Host is not set."
  | MissingClientID =>
      "The provider cannot create the Mastodon API client as the Client ID is not set."
  | MissingClientSecret =>
      "The provider cannot create the Mastodon API client as the Client Secret is not set."
  | MissingCredentials => neither_detail
  end.

Definition missing_diagnostic (m : Missing) : diag.Diagnostic :=
  NewAttributeErrorDiagnostic (path.Root "user-access-token")
    "Missing Mastodon Credentials" (missing_detail m).

Definition unknown_diagnostic (f : Field) : diag.Diagnostic :=
  match f with
  | FieldHost =>
      NewAttributeErrorDiagnostic (path.Root "host")
        "Unknown Mastodon API Host"
        (unknown_detail "Mastodon API host" "MASTODON_HOST")
  | FieldClientID =>
      NewAttributeErrorDiagnostic (path.Root "client-id")
        "Unknown Mastodon Client ID"
        (unknown_detail "Mastodon Client ID" "MASTODON_CLIENT_ID")
  | FieldClientSecret =>
      NewAttributeErrorDiagnostic (path.Root "client-secret")
        "Unknown Mastodon Client Secret"
        (unknown_detail "Mastodon Client Secret" "MASTODON_CLIENT_SECRET")
  | FieldEmail =>
      NewAttributeErrorDiagnostic (path.Root "user-email")
        "Unknown Mastodon User Email"
        (unknown_detail "Mastodon User Email" "MASTODON_USER_EMAIL")
  | FieldPassword =>
      NewAttributeErrorDiagnostic (path.Root "user-password")
        "Unknown Mastodon User Password"
        (unknown_detail "Mastodon User Password" "MASTODON_USER_PASSWORD")
  | FieldAccessToken =>
      NewAttributeErrorDiagnostic (path.Root "user-access-token")
        "Unknown Mastodon User Password"
        (unknown_detail "Mastodon User Password" "MASTODON_USER_PASSWORD")
  end.

(** The checks of [Configure_resolve] in the order it makes them: the
    condition of each and the diagnostic it adds. *)
Definition checks (data : MastodonProviderModel) (r : Resolved)
  : list (bool * diag.Diagnostic) :=
  [ (String_IsUnknown (Host data), unknown_diagnostic FieldHost);
    (String.eqb (host r) "", missing_diagnostic MissingHost);
    (String_IsUnknown (ClientID data), unknown_diagnostic FieldClientID);
    (String.eqb (client_id r) "", missing_diagnostic MissingClientID);
    (String_IsUnknown (ClientSecret data), unknown_diagnostic FieldClientSecret);
    (String.eqb (client_secret r) "", missing_diagnostic MissingClientSecret);
    (String_IsUnknown (Email data), unknown_diagnostic FieldEmail);
    (String_IsUnknown (Password data), unknown_diagnostic FieldPassword);
    (String_IsUnknown (AccessToken data), unknown_diagnostic FieldAccessToken);
    (String.eqb (access_token r) ""
     && (String.eqb (user_email r) "" || String.eqb (user_password r) ""),
     missing_diagnostic MissingCredentials) ].

Definition run_check (diags : diag.Diagnostics) (chk : bool * diag.Diagnostic)
  : diag.Diagnostics :=
  if chk.1 then Append diags [chk.2] else diags.

(** The client [Configure] builds from the resolved values: the access
    token is passed on when it is set, the email and password never are. *)
Definition client_of (r : Resolved) : mastodon.Client :=
  mastodon.NewClient
    (mastodon.mkConfig (host r) (client_id r) (client_secret r)
       (if nonempty (access_token r) then access_token r else "")).

(** [Configure] succeeded with client [c]: no error diagnostic, and the
    client handed to data sources and resources. *)
Definition configured_with (c : mastodon.Client)
    (resp : provider.ConfigureResponse) : Prop :=
  HasError (provider.Diagnostics resp) = false
  /\ provider.DataSourceData resp = any_Client (Some c)
  /\ provider.ResourceData resp = any_Client (Some c).

(** [Configure] failed: an error diagnostic, and no client handed on. *)
Definition configure_failed (resp : provider.ConfigureResponse) : Prop :=
  HasError (provider.Diagnostics resp) = true
  /\ provider.DataSourceData resp = any_nil
  /\ provider.ResourceData resp = any_nil.

Definition request_of (data : MastodonProviderModel) : provider.ConfigureRequest :=
  provider.mkConfigureRequest (mkDecoded data []).

Definition known (s : string) : types.String := types.StringValue s.

Definition entry_debug (msg : string) : tflog.Entry :=
  tflog.mkEntry tflog.LevelDebug msg.

(** ** Vocabulary for the further properties *)

(** The world an outcome leaves behind. *)
Definition world_of {W A : Type} (o : Res W A) : W :=
  match o with
  | Returned _ w => w
  | Panicked _ w => w
  end.

(** [Configure] gets as far as its remote call exactly when decoding reported
    no error, no configuration value is unknown and the resolved combination
    is valid. *)
Definition checks_pass (env : gmap string string)
    (req : provider.ConfigureRequest) : bool :=
  negb (HasError (Get_diags (provider.Config req)))
  && no_unknown (Get_data (provider.Config req))
  && valid_combination
       (Configure_resolve env (Get_data (provider.Config req)) []).1.

(** The root paths [Configure] attaches its diagnostics to. *)
Definition configure_paths : list string :=
  ["host"; "client-id"; "client-secret"; "user-email"; "user-password";
   "user-access-token"].

(** The item that is missing when the given field resolves to nothing;
    email and password have none of their own. *)
Definition missing_of_field (f : Field) : option Missing :=
  match f with
  | FieldHost => Some MissingHost
  | FieldClientID => Some MissingClientID
  | FieldClientSecret => Some MissingClientSecret
  | _ => None
  end.

(** The six attributes a post state takes from a status of the server. *)
Definition taken_from `{bluemonday.Library}
    (st : PostResource.PostResourceModel) (post : mastodon.Status) : Prop :=
  PostResource.Id st = types.StringValue (mastodon.Status_ID post)
  /\ PostResource.CreatedAt st
     = types.StringValue (time.String_of (mastodon.CreatedAt post))
  /\ PostResource.Account st
     = types.StringValue (mastodon.Account_ID (mastodon.Status_Account post))
  /\ PostResource.Content st
     = types.StringValue
         (bluemonday.Sanitize bluemonday.NewPolicy (mastodon.Content post))
  /\ PostResource.Visibility st
     = types.StringValue (mastodon.Status_Visibility post)
  /\ PostResource.Sensitive st
     = types.BoolValue (mastodon.Status_Sensitive post).

(** Does the text contain an "@"? *)
Fixpoint has_at (s : string) : bool :=
  match s with
  | EmptyString => false
  | String ch rest => Ascii.eqb ch "@" || has_at rest
  end.

(** The result [Run] computes for two string arguments. *)
Definition identity_of (username server : string) : option string :=
  function.Result
    (IdentityFunction_Run
       (function.mkRunRequest
          [function.StringArg username; function.StringArg server])
       (function.mkRunResponse None None)).

(** ** Concrete inputs *)

Module Examples.

Definition client : mastodon.Client :=
  mastodon.NewClient (mastodon.mkConfig "mastodon.example" "id" "secret" "token").

Definition account_source : AccountDataSource.AccountDataSource :=
  AccountDataSource.mkAccountDataSource (Some client).

Definition account_request (username : string) : AccountDataSource.ReadRequest :=
  AccountDataSource.mkReadRequest
    (mkDecoded
       (AccountDataSource.mkModel (types.StringValue username)
          types.StringNull types.StringNull types.StringNull
          types.BoolNull types.BoolNull) []).

Definition no_account : AccountDataSource.ReadResponse :=
  AccountDataSource.mkReadResponse None [].

(** A server on which "user@host" is an unlocked bot account. *)
Definition bot_server : RefServer.State :=
  RefServer.mkState true [("user@host", RefServer.bot_account)] [] 100.

Definition post_resource : PostResource.PostResource :=
  PostResource.mkPostResource (Some client).

Definition plan (content : string) : PostResource.PostResourceModel :=
  PostResource.mkModel types.StringUnknown types.StringUnknown
    types.StringUnknown (types.StringValue content)
    (types.StringValue "public") (types.BoolValue false) (types.BoolValue false).

(** The state of a post whose identifier is "100". *)
Definition stored (content : string) (preserve : bool)
  : PostResource.PostResourceModel :=
  PostResource.mkModel (types.StringValue "100")
    (types.StringValue "2024-01-01 00:00:00 +0000 UTC") (types.StringValue "1")
    (types.StringValue content) (types.StringValue "public")
    (types.BoolValue false) (types.BoolValue preserve).

Definition request (data : PostResource.PostResourceModel) : PostResource.Request :=
  PostResource.mkRequest (mkDecoded data []).

Definition absent : PostResource.Response := PostResource.mkResponse None [].

Definition present (data : PostResource.PostResourceModel) : PostResource.Response :=
  PostResource.mkResponse (Some data) [].

(** A provider configuration that sets everything but email and password. *)
Definition token_config : MastodonProviderModel :=
  mkMastodonProviderModel (known "mastodon.example") (known "id")
    (known "secret") types.StringNull types.StringNull (known "token").

(** The same, with an email whose value is not known yet. *)
Definition unknown_email_config : MastodonProviderModel :=
  mkMastodonProviderModel (known "mastodon.example") (known "id")
    (known "secret") types.StringUnknown types.StringNull (known "token").

(** A provider block that signs in with an email and a password. *)
Definition password_config (email password : string) : MastodonProviderModel :=
  mkMastodonProviderModel (known "mastodon.example") (known "id")
    (known "secret") (known email) (known password) types.StringNull.

(** A provider block that sets the host to the empty string. *)
Definition empty_host_config : MastodonProviderModel :=
  mkMastodonProviderModel (known "") types.StringNull
    types.StringNull types.StringNull types.StringNull types.StringNull.

(** A provider block whose host is not known yet. *)
Definition unknown_host_config : MastodonProviderModel :=
  mkMastodonProviderModel types.StringUnknown types.StringNull
    types.StringNull types.StringNull types.StringNull types.StringNull.

Definition empty_config : MastodonProviderModel :=
  mkMastodonProviderModel types.StringNull types.StringNull types.StringNull
    types.StringNull types.StringNull types.StringNull.

Definition no_env : gmap string string := ∅.

(** An environment that supplies host, client and an email and password. *)
Definition password_env : gmap string string :=
  <["MASTODON_HOST" := "mastodon.example"]>
    (<["MASTODON_CLIENT_ID" := "id"]>
       (<["MASTODON_CLIENT_SECRET" := "secret"]>
          (<["MASTODON_USER_EMAIL" := "user@mastodon.example"]>
             (<["MASTODON_USER_PASSWORD" := "hunter2"]> ∅)))).

(** An environment as the acceptance tests need it. *)
Definition token_env : gmap string string :=
  <["MASTODON_HOST" := "mastodon.example"]>
    (<["MASTODON_CLIENT_ID" := "id"]>
       (<["MASTODON_CLIENT_SECRET" := "secret"]>
          (<["MASTODON_ACCESS_TOKEN" := "token"]> ∅))).

(** A server that rejects the credentials it is shown. *)
Definition rejecting_server : RefServer.State :=
  RefServer.mkState false [] [] 100.

Definition unavailable : string := "bad request: 503 Service Unavailable".

Definition zero_account : mastodon.Account :=
  mastodon.mkAccount "" "" "" "" false false.

(** A client whose calls all fail, and whose fetch of the current user
    returns a zero account record next to its error. *)
Definition failing_client : MastodonAPI unit := {|
  api_GetAccountCurrentUser := fun _ s => (s, (Some zero_account, Some unavailable));
  api_AccountLookup := fun _ _ s => (s, (None, Some unavailable));
  api_PostStatus := fun _ _ s => (s, (None, Some unavailable));
  api_GetStatus := fun _ _ s => (s, (None, Some unavailable));
  api_UpdateStatus := fun _ _ _ s => (s, (None, Some unavailable));
  api_DeleteStatus := fun _ _ s => (s, Some unavailable)
|}.

(** A client that answers every call with neither a record nor an error. *)
Definition silent_client : MastodonAPI unit := {|
  api_GetAccountCurrentUser := fun _ s => (s, (None, None));
  api_AccountLookup := fun _ _ s => (s, (None, None));
  api_PostStatus := fun _ _ s => (s, (None, None));
  api_GetStatus := fun _ _ s => (s, (None, None));
  api_UpdateStatus := fun _ _ _ s => (s, (None, None));
  api_DeleteStatus := fun _ _ s => (s, None)
|}.

(** What a decoding that went wrong reports. *)
Definition decode_failure : diag.Diagnostics :=
  [NewErrorDiagnostic "Value Conversion Error"
     "An unexpected error was encountered trying to build a value."].

Definition failed_request (data : PostResource.PostResourceModel)
  : PostResource.Request :=
  PostResource.mkRequest (mkDecoded data decode_failure).

Definition unconfigured : PostResource.PostResource :=
  PostResource.NewPostResource.

(** The state right after an import of the given identifier. *)
Definition imported (id : string) : PostResource.PostResourceModel :=
  PostResource.mkModel (types.StringValue id) types.StringNull
    types.StringNull types.StringNull types.StringNull types.BoolNull
    types.BoolNull.

(** A server that holds post "100". *)
Definition server_with_post : RefServer.State :=
  RefServer.mkState true []
    [RefServer.status_of "100" (mastodon.mkToot "First Test Post" "public" false)]
    101.

End Examples.

(** * Properties *)

(** ** Diagnostics *)

Lemma Contains_spec (diags : diag.Diagnostics) (d : diag.Diagnostic) :
  Contains diags d = true <-> d ∈ diags.
Proof. unfold Contains. apply bool_decide_eq_true. Qed.

Lemma elem_of_Append (diags new : list diag.Diagnostic) (d : diag.Diagnostic) :
  d ∈ Append diags new <-> d ∈ diags \/ d ∈ new.
Proof.
  revert diags. induction new as [|x new IH]; intros diags; simpl.
  - rewrite elem_of_nil. tauto.
  - destruct (Contains diags x) eqn:Hc.
    + apply Contains_spec in Hc. rewrite IH, elem_of_cons.
      split; [tauto|]. intros [?|[->|?]]; auto.
    + rewrite IH, elem_of_app, list_elem_of_singleton, elem_of_cons. tauto.
Qed.

Lemma HasError_elem (diags : diag.Diagnostics) :
  HasError diags = true <-> exists d, d ∈ diags /\ is_error d = true.
Proof.
  unfold HasError. rewrite existsb_exists.
  split; intros (d & Hd & He); exists d; split; auto;
    by apply list_elem_of_In.
Qed.

Lemma HasError_Append (diags new : list diag.Diagnostic) :
  HasError (Append diags new) = HasError diags || HasError new.
Proof.
  apply eq_true_iff_eq. rewrite orb_true_iff, !HasError_elem.
  split.
  - intros (d & Hd & He). apply elem_of_Append in Hd as [Hd|Hd]; eauto.
  - intros [(d & Hd & He)|(d & Hd & He)]; exists d;
      rewrite elem_of_Append; auto.
Qed.

Lemma elem_of_AddError (diags : diag.Diagnostics) (summary detail : string)
    (d : diag.Diagnostic) :
  d ∈ AddError diags summary detail
  <-> d ∈ diags \/ d = NewErrorDiagnostic summary detail.
Proof.
  unfold AddError. rewrite elem_of_Append, list_elem_of_singleton. tauto.
Qed.

Lemma elem_of_AddAttributeError (diags : diag.Diagnostics) (p : path.Path)
    (summary detail : string) (d : diag.Diagnostic) :
  d ∈ AddAttributeError diags p summary detail
  <-> d ∈ diags \/ d = NewAttributeErrorDiagnostic p summary detail.
Proof.
  unfold AddAttributeError.
  rewrite elem_of_Append, list_elem_of_singleton. tauto.
Qed.

Lemma HasError_AddError (diags : diag.Diagnostics) (summary detail : string) :
  HasError (AddError diags summary detail) = true.
Proof.
  unfold AddError. rewrite HasError_Append. simpl. apply orb_true_r.
Qed.

Lemma HasError_AddAttributeError (diags : diag.Diagnostics) (p : path.Path)
    (summary detail : string) :
  HasError (AddAttributeError diags p summary detail) = true.
Proof.
  unfold AddAttributeError. rewrite HasError_Append. simpl. apply orb_true_r.
Qed.

(** ** The identity function *)

(** C10: for every username and server the identity function returns
    exactly "@" followed by the username, "@" and the server, without an
    error; the only error [Run] ever reports is the one of the host's
    argument validation. *)
Theorem identity_returns_concatenation :
  (forall (username server : string) (resp : function.RunResponse),
      IdentityFunction_Run
        (function.mkRunRequest
           [function.StringArg username; function.StringArg server]) resp
      = function.mkRunResponse None
          (Some (String "@" (username +:+ String "@" server))))
  /\ (forall (req : function.RunRequest) (resp : function.RunResponse),
        function.Error (IdentityFunction_Run req resp)
        = (Arguments_Get2 (function.Arguments req)).1).
Proof.
  split.
  - intros username server resp. reflexivity.
  - intros [args] resp. unfold IdentityFunction_Run. simpl.
    destruct (Arguments_Get2 args) as [[e|] [u s]]; reflexivity.
Qed.

(** ** Resolution of the configuration fields *)

Lemma Configure_resolve_fst (env : gmap string string)
    (data : MastodonProviderModel) (diags : diag.Diagnostics) (f : Field) :
  resolved_value f (Configure_resolve env data diags).1
  = resolve_field env data f.
Proof.
  destruct f; reflexivity.
Qed.

(** C9: each of the six fields (host, client_id, client_secret, email,
    password, access_token) resolves to its configuration value when that
    value is not null, and to its environment variable otherwise.  (An
    unknown configuration value is not null; its string is empty.) *)
Theorem configuration_overrides_environment :
  forall (env : gmap string string) (data : MastodonProviderModel)
         (diags : diag.Diagnostics) (f : Field),
    resolved_value f (Configure_resolve env data diags).1
    = match config_value f data with
      | types.StringNull => Getenv env (env_var f)
      | types.StringUnknown => ""
      | types.StringValue s => s
      end.
Proof.
  intros env data diags f.
  rewrite Configure_resolve_fst. unfold resolve_field.
  destruct (config_value f data); reflexivity.
Qed.

(** ** Adapter configuration *)

(** C7, corrected: for the post resource and for the account data
    source, a client reference of an unexpected shape is reported as an
    error that asks to report the issue to the provider developers, and the
    adapter keeps its client; an absent (nil) reference is not reported at
    all: the adapter returns with its diagnostics and its client as they
    were. *)
Theorem adapter_configure_guards :
  (forall (r : PostResource.PostResource) (resp : PostResource.ConfigureResponse)
          (T : string),
      let out := PostResource.Configure r
                   (PostResource.mkConfigureRequest (any_other T)) resp in
      out.1 = r
      /\ NewErrorDiagnostic "Unexpected Resource Configure Type"
           ("Expected *mastodon.Client, got: " +:+ T
            +:+ ". Please report this issue to the provider developers.")
         ∈ PostResource.Configure_Diagnostics out.2
      /\ HasError (PostResource.Configure_Diagnostics out.2) = true)
  /\ (forall (d : AccountDataSource.AccountDataSource)
             (resp : AccountDataSource.ConfigureResponse) (T : string),
      let out := AccountDataSource.Configure d
                   (AccountDataSource.mkConfigureRequest (any_other T)) resp in
      out.1 = d
      /\ NewErrorDiagnostic "Unexpected Data Source Configure Type"
           ("Expected *mastodon.Client, got: " +:+ T
            +:+ ". Please report this issue to the provider developers.")
         ∈ AccountDataSource.Configure_Diagnostics out.2
      /\ HasError (AccountDataSource.Configure_Diagnostics out.2) = true)
  /\ (forall (r : PostResource.PostResource) (resp : PostResource.ConfigureResponse),
      PostResource.Configure r (PostResource.mkConfigureRequest any_nil) resp
      = (r, resp))
  /\ (forall (d : AccountDataSource.AccountDataSource)
             (resp : AccountDataSource.ConfigureResponse),
      AccountDataSource.Configure d
        (AccountDataSource.mkConfigureRequest any_nil) resp
      = (d, resp)).
Proof.
  repeat split.
  - apply elem_of_AddError. right. reflexivity.
  - apply HasError_AddError.
  - apply elem_of_AddError. right. reflexivity.
  - apply HasError_AddError.
Qed.

(** C7 does not hold for an absent reference: configuring either adapter
    with a nil client reference reports no diagnostic. *)
Lemma adapter_configure_nil_reports_nothing :
  PostResource.Configure_Diagnostics
    (PostResource.Configure PostResource.NewPostResource
       (PostResource.mkConfigureRequest any_nil)
       (PostResource.mkConfigureResponse [])).2 = []
  /\ AccountDataSource.Configure_Diagnostics
       (AccountDataSource.Configure AccountDataSource.NewAccountDataSource
          (AccountDataSource.mkConfigureRequest any_nil)
          (AccountDataSource.mkConfigureResponse [])).2 = []
  /\ ~ (forall v : any,
          v = any_nil \/ (exists T, v = any_other T) ->
          HasError
            (PostResource.Configure_Diagnostics
               (PostResource.Configure PostResource.NewPostResource
                  (PostResource.mkConfigureRequest v)
                  (PostResource.mkConfigureResponse [])).2) = true).
Proof.
  split; [reflexivity|]. split; [reflexivity|].
  intros Hall. specialize (Hall any_nil (or_introl eq_refl)). discriminate Hall.
Qed.

(** ** Running the monad *)

Ltac run_monad :=
  unfold mbind, M_bind, mret, M_ret, tflog_Debug, tflog_Trace, tflog_Error,
    log, remote, deref, panic; simpl.

(** ** The account data source *)

Section AccountRead.

Context {Server : Type} `{MastodonAPI Server}.

Variables (d : AccountDataSource.AccountDataSource) (c : mastodon.Client).
Variables (req : AccountDataSource.ReadRequest)
          (resp : AccountDataSource.ReadResponse).
Variable w : World Server.

Let data := Get_data (AccountDataSource.Config req).
Let username := String_ValueString (AccountDataSource.Username data).

Hypothesis configured : AccountDataSource.client d = Some c.
Hypothesis decoded :
  HasError (Append (AccountDataSource.Diagnostics resp)
                   (Get_diags (AccountDataSource.Config req))) = false.

Lemma account_read_error (s' : Server) (account : option mastodon.Account)
    (e : string) :
  api_AccountLookup c username (server w) = (s', (account, Some e)) ->
  exists w',
    AccountDataSource.Read d req resp w
    = Returned
        (AccountDataSource.mkReadResponse (AccountDataSource.State resp)
           (AddError (Append (AccountDataSource.Diagnostics resp)
                             (Get_diags (AccountDataSource.Config req)))
              "Failed to lookup account" ("Failed to lookup account: " +:+ e)))
        w'
    /\ server w' = s'
    /\ calls w' = (calls w ++ [CallAccountLookup c username])%list.
Proof.
  intros Hlookup. unfold AccountDataSource.Read, Client_AccountLookup.
  run_monad. rewrite decoded, configured. simpl.
  fold data. fold username. rewrite Hlookup. simpl.
  eexists. split; [reflexivity|]. split; reflexivity.
Qed.

Lemma account_read_success (s' : Server) (account : mastodon.Account) :
  api_AccountLookup c username (server w) = (s', (Some account, None)) ->
  exists w',
    AccountDataSource.Read d req resp w
    = Returned
        (AccountDataSource.mkReadResponse
           (Some (AccountDataSource.mkModel
                    (AccountDataSource.Username data)
                    (types.StringValue (mastodon.Account_ID account))
                    (types.StringValue (mastodon.DisplayName account))
                    (types.StringValue (mastodon.Note account))
                    (types.BoolValue (mastodon.Locked account))
                    (types.BoolValue (mastodon.Bot account))))
           (Append (AccountDataSource.Diagnostics resp)
                   (Get_diags (AccountDataSource.Config req))))
        w'
    /\ server w' = s'
    /\ calls w' = (calls w ++ [CallAccountLookup c username])%list.
Proof.
  intros Hlookup. unfold AccountDataSource.Read, Client_AccountLookup.
  run_monad. rewrite decoded, configured. simpl.
  fold data. fold username. rewrite Hlookup. simpl.
  eexists. split; [reflexivity|]. split; reflexivity.
Qed.

End AccountRead.

(** ** The post resource *)

Section PostLifecycle.

Context {Server : Type} `{MastodonAPI Server} `{bluemonday.Library}.

Variables (r : PostResource.PostResource) (c : mastodon.Client).
Variables (req : PostResource.Request) (resp : PostResource.Response).
Variable w : World Server.

Let data := Get_data (PostResource.Source req).
Let id := String_ValueString (PostResource.Id data).
Let diags :=
  Append (PostResource.Diagnostics resp) (Get_diags (PostResource.Source req)).

Hypothesis decoded : HasError diags = false.

Lemma post_delete_preserved :
  Bool_ValueBool (PostResource.PreserveOnDestroy data) = true ->
  PostResource.Delete r req resp w
  = Returned (PostResource.mkResponse (PostResource.State resp) diags)
      (mkWorld (server w) (calls w)
         (logs w ++ [tflog.mkEntry tflog.LevelDebug
            "preserve_on_destroy is enabled: preserving post on server."])%list).
Proof.
  intros Hp. unfold PostResource.Delete, PostResource.decode. simpl.
  fold data. fold diags. rewrite decoded, Hp. reflexivity.
Qed.

Hypothesis configured : PostResource.client r = Some c.

Lemma post_delete_remote (s' : Server) (err : error) :
  Bool_ValueBool (PostResource.PreserveOnDestroy data) = false ->
  api_DeleteStatus c id (server w) = (s', err) ->
  PostResource.Delete r req resp w
  = Returned
      (PostResource.mkResponse (PostResource.State resp)
         match err with
         | Some e =>
             AddError diags "Client Error"
               ("Unable to delete post, got error: " +:+ e)
         | None => diags
         end)
      (mkWorld s' (calls w ++ [CallDeleteStatus c id])%list (logs w)).
Proof.
  intros Hp Hdel.
  unfold PostResource.Delete, PostResource.decode, Client_DeleteStatus.
  simpl. fold data. fold diags. rewrite decoded, Hp, configured.
  run_monad. fold id. rewrite Hdel. destruct err; reflexivity.
Qed.

Lemma post_read_error (s' : Server) (post : option mastodon.Status) (e : string) :
  api_GetStatus c id (server w) = (s', (post, Some e)) ->
  PostResource.Read r req resp w
  = Returned
      (PostResource.mkResponse (PostResource.State resp)
         (AddError diags "Client Error"
            ("Unable to read post, got error: " +:+ e)))
      (mkWorld s' (calls w ++ [CallGetStatus c id])%list (logs w)).
Proof.
  intros Hget.
  unfold PostResource.Read, PostResource.decode, Client_GetStatus.
  simpl. fold data. fold diags. rewrite decoded, configured.
  run_monad. fold id. rewrite Hget. reflexivity.
Qed.


Lemma post_create_success (s' : Server) (post : mastodon.Status) :
  api_PostStatus c (PostResource.toot_of data) (server w)
  = (s', (Some post, None)) ->
  PostResource.Create r req resp w
  = Returned
      (PostResource.mkResponse
         (Some (PostResource.with_post data bluemonday.NewPolicy post)) diags)
      (mkWorld s'
         (calls w ++ [CallPostStatus c (PostResource.toot_of data)])%list
         (logs w ++ [tflog.mkEntry tflog.LevelTrace "created a resource"])%list).
Proof.
  intros Hpost.
  unfold PostResource.Create, PostResource.decode, Client_PostStatus.
  simpl. fold data. fold diags. rewrite decoded, configured.
  run_monad. rewrite Hpost. reflexivity.
Qed.

Lemma post_update_success (s' : Server) (post : mastodon.Status) :
  api_UpdateStatus c (PostResource.toot_of data) id (server w)
  = (s', (Some post, None)) ->
  PostResource.Update r req resp w
  = Returned
      (PostResource.mkResponse
         (Some (PostResource.with_post data bluemonday.NewPolicy post)) diags)
      (mkWorld s'
         (calls w ++ [CallUpdateStatus c (PostResource.toot_of data) id])%list
         (logs w)).
Proof.
  intros Hup.
  unfold PostResource.Update, PostResource.decode, Client_UpdateStatus.
  simpl. fold data. fold diags. rewrite decoded, configured.
  run_monad. fold id. rewrite Hup. reflexivity.
Qed.

End PostLifecycle.

(** C8: an account read that gets an error from the remote lookup reports
    "Failed to lookup account" and leaves the state as it was; a read that
    succeeds writes a state whose five computed fields (id, display_name,
    note, locked, bot) are those of the remote record, whatever they were
    before, and whose username is the one supplied. *)
Theorem account_read_replaces_computed_fields :
  forall (Server : Type) (api : MastodonAPI Server)
         (d : AccountDataSource.AccountDataSource) (c : mastodon.Client)
         (req : AccountDataSource.ReadRequest)
         (resp : AccountDataSource.ReadResponse) (w : World Server),
    AccountDataSource.client d = Some c ->
    HasError (Append (AccountDataSource.Diagnostics resp)
                     (Get_diags (AccountDataSource.Config req))) = false ->
    let data := Get_data (AccountDataSource.Config req) in
    let username := String_ValueString (AccountDataSource.Username data) in
    (forall (s' : Server) (account : option mastodon.Account) (e : string),
        api_AccountLookup c username (server w) = (s', (account, Some e)) ->
        exists resp' w',
          AccountDataSource.Read d req resp w = Returned resp' w'
          /\ AccountDataSource.State resp' = AccountDataSource.State resp
          /\ NewErrorDiagnostic "Failed to lookup account"
               ("Failed to lookup account: " +:+ e)
             ∈ AccountDataSource.Diagnostics resp'
          /\ HasError (AccountDataSource.Diagnostics resp') = true)
    /\ (forall (s' : Server) (account : mastodon.Account),
        api_AccountLookup c username (server w) = (s', (Some account, None)) ->
        exists resp' w',
          AccountDataSource.Read d req resp w = Returned resp' w'
          /\ AccountDataSource.State resp'
             = Some (AccountDataSource.mkModel
                       (AccountDataSource.Username data)
                       (types.StringValue (mastodon.Account_ID account))
                       (types.StringValue (mastodon.DisplayName account))
                       (types.StringValue (mastodon.Note account))
                       (types.BoolValue (mastodon.Locked account))
                       (types.BoolValue (mastodon.Bot account)))
          /\ HasError (AccountDataSource.Diagnostics resp') = false).
Proof.
  intros Server api d c req resp w Hc Hd data username. split.
  - intros s' account e Hl.
    destruct (account_read_error d c req resp w Hc Hd s' account e Hl)
      as (w' & Hr & _).
    eexists _, w'. split; [exact Hr|]. simpl. split; [reflexivity|]. split.
    + apply elem_of_AddError. right. reflexivity.
    + apply HasError_AddError.
  - intros s' account Hl.
    destruct (account_read_success d c req resp w Hc Hd s' account Hl)
      as (w' & Hr & _).
    eexists _, w'. split; [exact Hr|]. simpl. split; [reflexivity|]. exact Hd.
Qed.

Lemma account_read_replaces_computed_fields_witness :
  (exists resp' w',
      AccountDataSource.Read Examples.account_source
        (Examples.account_request "nobody@host") Examples.no_account
        (RefServer.world RefServer.initial) = Returned resp' w'
      /\ AccountDataSource.State resp' = None
      /\ NewErrorDiagnostic "Failed to lookup account"
           ("Failed to lookup account: " +:+ RefServer.not_found)
         ∈ AccountDataSource.Diagnostics resp'
      /\ HasError (AccountDataSource.Diagnostics resp') = true)
  /\ (exists resp' w',
        AccountDataSource.Read Examples.account_source
          (Examples.account_request "user@host") Examples.no_account
          (RefServer.world RefServer.initial) = Returned resp' w'
        /\ AccountDataSource.State resp'
           = Some (AccountDataSource.mkModel (types.StringValue "user@host")
                     (types.StringValue "8") (types.StringValue "A User")
                     (types.StringValue "Hello.") (types.BoolValue false)
                     (types.BoolValue false))
        /\ HasError (AccountDataSource.Diagnostics resp') = false).
Proof.
  split.
  - apply (proj1 (account_read_replaces_computed_fields RefServer.State
        RefServer.api Examples.account_source Examples.client
        (Examples.account_request "nobody@host") Examples.no_account
        (RefServer.world RefServer.initial) eq_refl eq_refl)
        RefServer.initial None RefServer.not_found).
    reflexivity.
  - apply (proj2 (account_read_replaces_computed_fields RefServer.State
        RefServer.api Examples.account_source Examples.client
        (Examples.account_request "user@host") Examples.no_account
        (RefServer.world RefServer.initial) eq_refl eq_refl)
        RefServer.initial RefServer.plain_account).
    reflexivity.
Defined.

(** C6, corrected: an account read with username "user@host" for which
    the remote record has bot equal to false yields a state whose bot output
    is false, rendered "false"; the locked output is the record's locked
    flag. *)
Theorem account_read_bot_output :
  forall (Server : Type) (api : MastodonAPI Server)
         (d : AccountDataSource.AccountDataSource) (c : mastodon.Client)
         (req : AccountDataSource.ReadRequest)
         (resp : AccountDataSource.ReadResponse) (w : World Server)
         (s' : Server) (account : mastodon.Account),
    AccountDataSource.client d = Some c ->
    HasError (Append (AccountDataSource.Diagnostics resp)
                     (Get_diags (AccountDataSource.Config req))) = false ->
    AccountDataSource.Username (Get_data (AccountDataSource.Config req))
    = types.StringValue "user@host" ->
    api_AccountLookup c "user@host" (server w) = (s', (Some account, None)) ->
    mastodon.Bot account = false ->
    exists resp' w' st,
      AccountDataSource.Read d req resp w = Returned resp' w'
      /\ AccountDataSource.State resp' = Some st
      /\ AccountDataSource.Bot st = types.BoolValue false
      /\ Bool_String (AccountDataSource.Bot st) = "false"
      /\ AccountDataSource.Locked st = types.BoolValue (mastodon.Locked account).
Proof.
  intros Server api d c req resp w s' account Hc Hd Hname Hl Hbot.
  destruct (account_read_success d c req resp w Hc Hd s' account)
    as (w' & Hr & _).
  { rewrite Hname. exact Hl. }
  eexists _, w', _. split; [exact Hr|]. simpl. split; [reflexivity|].
  simpl. rewrite Hbot. repeat split.
Qed.

Lemma account_read_bot_output_witness :
  exists resp' w' st,
    AccountDataSource.Read Examples.account_source
      (Examples.account_request "user@host") Examples.no_account
      (RefServer.world RefServer.initial) = Returned resp' w'
    /\ AccountDataSource.State resp' = Some st
    /\ AccountDataSource.Bot st = types.BoolValue false
    /\ Bool_String (AccountDataSource.Bot st) = "false"
    /\ AccountDataSource.Locked st = types.BoolValue false.
Proof.
  apply (account_read_bot_output RefServer.State RefServer.api
           Examples.account_source Examples.client
           (Examples.account_request "user@host") Examples.no_account
           (RefServer.world RefServer.initial) RefServer.initial
           RefServer.plain_account eq_refl eq_refl eq_refl eq_refl eq_refl).
Defined.

(** C6 does not hold with locked in place of bot: the remote record of
    "user@host" has locked equal to false, and the bot output of the read is
    true. *)
Lemma account_read_bot_ignores_locked :
  exists resp' w' st,
    api_AccountLookup Examples.client "user@host" Examples.bot_server
    = (Examples.bot_server, (Some RefServer.bot_account, None))
    /\ mastodon.Locked RefServer.bot_account = false
    /\ AccountDataSource.Read Examples.account_source
         (Examples.account_request "user@host") Examples.no_account
         (RefServer.world Examples.bot_server) = Returned resp' w'
    /\ AccountDataSource.State resp' = Some st
    /\ AccountDataSource.Bot st = types.BoolValue true
    /\ Bool_String (AccountDataSource.Bot st) <> "false".
Proof.
  eexists _, _, _. split; [reflexivity|]. split; [reflexivity|].
  split; [cbv; reflexivity|]. split; [reflexivity|]. split; [reflexivity|].
  discriminate.
Qed.

(** C4: for every post state, Delete with preserve_on_destroy true makes no
    remote call and reports no error; Delete with preserve_on_destroy false
    (or not set, which [ValueBool] reads as false) makes exactly one remote
    delete call and reports an error exactly when that call fails. *)
Theorem delete_honours_preserve_on_destroy :
  forall (Server : Type) (api : MastodonAPI Server)
         (r : PostResource.PostResource) (c : mastodon.Client)
         (req : PostResource.Request) (resp : PostResource.Response)
         (w : World Server),
    let data := Get_data (PostResource.Source req) in
    let id := String_ValueString (PostResource.Id data) in
    HasError (Append (PostResource.Diagnostics resp)
                     (Get_diags (PostResource.Source req))) = false ->
    (PostResource.PreserveOnDestroy data = types.BoolValue true ->
     exists resp' w',
       PostResource.Delete r req resp w = Returned resp' w'
       /\ calls w' = calls w
       /\ server w' = server w
       /\ HasError (PostResource.Diagnostics resp') = false)
    /\ (Bool_ValueBool (PostResource.PreserveOnDestroy data) = false ->
        PostResource.client r = Some c ->
        exists resp' w',
          PostResource.Delete r req resp w = Returned resp' w'
          /\ calls w' = (calls w ++ [CallDeleteStatus c id])%list
          /\ server w' = (api_DeleteStatus c id (server w)).1
          /\ (HasError (PostResource.Diagnostics resp') = true
              <-> (api_DeleteStatus c id (server w)).2 <> None)
          /\ (forall e : string,
                (api_DeleteStatus c id (server w)).2 = Some e ->
                NewErrorDiagnostic "Client Error"
                  ("Unable to delete post, got error: " +:+ e)
                ∈ PostResource.Diagnostics resp')).
Proof.
  intros Server api r c req resp w data id Hd. split.
  - intros Hp. eexists _, _. split.
    + apply post_delete_preserved; [exact Hd|]. fold data. rewrite Hp.
      reflexivity.
    + simpl. repeat split. exact Hd.
  - intros Hp Hc.
    destruct (api_DeleteStatus c id (server w)) as [s' err] eqn:Hdel.
    eexists _, _. split.
    + apply (post_delete_remote r c req resp w Hd Hc s' err); [|exact Hdel].
      exact Hp.
    + simpl. split; [reflexivity|]. split; [reflexivity|]. split.
      * destruct err as [e|].
        -- rewrite HasError_AddError. split; [discriminate|reflexivity].
        -- rewrite Hd. split; [discriminate|]. intros Hn. by destruct Hn.
      * intros e [= ->]. apply elem_of_AddError. right. reflexivity.
Qed.

Lemma delete_honours_preserve_on_destroy_witness :
  (exists resp' w',
      PostResource.Delete Examples.post_resource
        (Examples.request (Examples.stored "First Test Post" true))
        (Examples.present (Examples.stored "First Test Post" true))
        (RefServer.world Examples.server_with_post) = Returned resp' w'
      /\ calls w' = []
      /\ server w' = Examples.server_with_post
      /\ HasError (PostResource.Diagnostics resp') = false)
  /\ (exists resp' w',
        PostResource.Delete Examples.post_resource
          (Examples.request (Examples.stored "First Test Post" false))
          (Examples.present (Examples.stored "First Test Post" false))
          (RefServer.world Examples.server_with_post) = Returned resp' w'
        /\ calls w' = [CallDeleteStatus Examples.client "100"]
        /\ HasError (PostResource.Diagnostics resp') = false).
Proof.
  split.
  - apply (proj1 (delete_honours_preserve_on_destroy RefServer.State
        RefServer.api Examples.post_resource Examples.client
        (Examples.request (Examples.stored "First Test Post" true))
        (Examples.present (Examples.stored "First Test Post" true))
        (RefServer.world Examples.server_with_post) eq_refl) eq_refl).
  - destruct (proj2 (delete_honours_preserve_on_destroy RefServer.State
        RefServer.api Examples.post_resource Examples.client
        (Examples.request (Examples.stored "First Test Post" false))
        (Examples.present (Examples.stored "First Test Post" false))
        (RefServer.world Examples.server_with_post) eq_refl) eq_refl eq_refl)
      as (resp' & w' & Hrun & Hcalls & _ & Herr & _).
    exists resp', w'. split; [exact Hrun|]. split; [exact Hcalls|].
    destruct (HasError (PostResource.Diagnostics resp')); [|reflexivity].
    exfalso. apply (proj1 Herr eq_refl). reflexivity.
Defined.

(** C5: whatever the stored state and whatever error the remote status
    fetch returns (a not-found response included), post Read reports
    "Unable to read post" and leaves the state it was handed unchanged: it
    is neither removed nor cleared. *)
Theorem post_read_error_keeps_state :
  forall (Server : Type) (api : MastodonAPI Server) (lib : bluemonday.Library)
         (r : PostResource.PostResource) (c : mastodon.Client)
         (req : PostResource.Request) (resp : PostResource.Response)
         (w : World Server) (s' : Server) (post : option mastodon.Status)
         (e : string),
    PostResource.client r = Some c ->
    HasError (Append (PostResource.Diagnostics resp)
                     (Get_diags (PostResource.Source req))) = false ->
    api_GetStatus c
      (String_ValueString (PostResource.Id (Get_data (PostResource.Source req))))
      (server w) = (s', (post, Some e)) ->
    exists resp' w',
      PostResource.Read r req resp w = Returned resp' w'
      /\ PostResource.State resp' = PostResource.State resp
      /\ NewErrorDiagnostic "Client Error"
           ("Unable to read post, got error: " +:+ e)
         ∈ PostResource.Diagnostics resp'
      /\ HasError (PostResource.Diagnostics resp') = true.
Proof.
  intros Server api lib r c req resp w s' post e Hc Hd Hget.
  eexists _, _. split.
  - apply (post_read_error r c req resp w Hd Hc s' post e Hget).
  - simpl. split; [reflexivity|]. split.
    + apply elem_of_AddError. right. reflexivity.
    + apply HasError_AddError.
Qed.

Lemma post_read_error_keeps_state_witness :
  exists resp' w',
    PostResource.Read Examples.post_resource
      (Examples.request (Examples.stored "First Test Post" false))
      (Examples.present (Examples.stored "First Test Post" false))
      (RefServer.world RefServer.initial) = Returned resp' w'
    /\ PostResource.State resp'
       = Some (Examples.stored "First Test Post" false)
    /\ NewErrorDiagnostic "Client Error"
         ("Unable to read post, got error: " +:+ RefServer.not_found)
       ∈ PostResource.Diagnostics resp'
    /\ HasError (PostResource.Diagnostics resp') = true.
Proof.
  apply (post_read_error_keeps_state RefServer.State RefServer.api
           stripping_policy Examples.post_resource Examples.client
           (Examples.request (Examples.stored "First Test Post" false))
           (Examples.present (Examples.stored "First Test Post" false))
           (RefServer.world RefServer.initial) RefServer.initial None
           RefServer.not_found eq_refl eq_refl eq_refl).
Defined.

(** ** Sanitization and the content round trip *)





(** ** Provider configuration *)

Lemma Configure_resolve_checks (env : gmap string string)
    (data : MastodonProviderModel) (diags : diag.Diagnostics) :
  Configure_resolve env data diags
  = (resolve_all env data,
     fold_left run_check (checks data (resolve_all env data)) diags).
Proof. reflexivity. Qed.

Lemma run_checks_mono (l : list (bool * diag.Diagnostic))
    (diags : diag.Diagnostics) (d : diag.Diagnostic) :
  d ∈ diags -> d ∈ fold_left run_check l diags.
Proof.
  revert diags. induction l as [|[b x] l IH]; intros diags Hd; simpl.
  - exact Hd.
  - apply IH. unfold run_check. cbn [fst snd]. destruct b; [|exact Hd].
    apply elem_of_Append. left. exact Hd.
Qed.

Lemma run_checks_hit (l : list (bool * diag.Diagnostic))
    (diags : diag.Diagnostics) (d : diag.Diagnostic) :
  (true, d) ∈ l -> d ∈ fold_left run_check l diags.
Proof.
  revert diags. induction l as [|[b x] l IH]; intros diags Hin; simpl.
  - by apply elem_of_nil in Hin.
  - apply elem_of_cons in Hin as [[= <- <-]|Hin].
    + apply run_checks_mono. unfold run_check. cbn [fst snd].
      apply elem_of_Append. right. apply list_elem_of_singleton. reflexivity.
    + apply IH. exact Hin.
Qed.

Lemma run_checks_none (l : list (bool * diag.Diagnostic))
    (diags : diag.Diagnostics) :
  forallb (fun chk => negb chk.1) l = true -> fold_left run_check l diags = diags.
Proof.
  revert diags. induction l as [|[b x] l IH]; intros diags Hall; simpl in *.
  - reflexivity.
  - apply andb_true_iff in Hall as [Hb Hl]. destruct b; [discriminate|].
    apply IH. exact Hl.
Qed.

Arguments Configure_resolve : simpl never.

Section ConfigureRun.

Context {Server : Type} `{MastodonAPI Server}.

Variables (env : gmap string string) (req : provider.ConfigureRequest).
Variables (resp : provider.ConfigureResponse) (w : World Server).

Let data := Get_data (provider.Config req).
Let diags0 := Append (provider.Diagnostics resp) (Get_diags (provider.Config req)).
Let r := (Configure_resolve env data diags0).1.
Let diags := (Configure_resolve env data diags0).2.

Lemma Configure_rejects :
  HasError diags = true ->
  MastodonProvider_Configure env req resp w
  = Returned (with_Diagnostics resp diags)
      (mkWorld (server w) (calls w)
         (logs w ++ [entry_debug "mastodon_provider configure"])%list).
Proof.
  intros Herr. unfold MastodonProvider_Configure.
  unfold mbind, M_bind, tflog_Debug, log. cbn beta iota.
  fold data. fold diags0.
  subst diags r. destruct (Configure_resolve env data diags0) as [r' diags'].
  cbn [fst snd] in *. rewrite Herr. reflexivity.
Qed.


Hypothesis accepted : HasError diags = false.
Hypothesis complete : has_credentials r = true.

Let c := client_of r.
Let logs1 :=
  ((logs w ++ [entry_debug "mastodon_provider configure"])
     ++ [entry_debug
           (if nonempty (access_token r)
            then "mastodon_provider configure with access token"
            else "mastodon_provider configure without access token")])%list.

Lemma Configure_accepts (s' : Server) (user : option mastodon.Account)
    (err : error) :
  api_GetAccountCurrentUser c (server w) = (s', (user, err)) ->
  let logs2 :=
    match err with
    | Some e =>
        (logs1 ++ [tflog.mkEntry tflog.LevelError
                     ("GetAccountCurrentUser Error: " +:+ e)])%list
    | None => logs1
    end in
  let diags1 :=
    match err with
    | Some e =>
        AddError diags
          "Mastodon GetAccountCurrentUser Failed, API is not usable." e
    | None => diags
    end in
  MastodonProvider_Configure env req resp w
  = match user with
    | None =>
        Panicked nil_dereference
          (mkWorld s' (calls w ++ [CallGetAccountCurrentUser c])%list logs2)
    | Some u =>
        Returned
          (if HasError diags1 then with_Diagnostics resp diags1
           else provider.mkConfigureResponse diags1
                  (any_Client (Some c)) (any_Client (Some c)))
          (mkWorld s' (calls w ++ [CallGetAccountCurrentUser c])%list
             (logs2 ++ [entry_debug ("mastodon_provider current user: "
                                     +:+ mastodon.Acct u)])%list)
    end.
Proof.
  intros Hcall logs2 diags1. subst logs2 diags1 logs1 c.
  unfold MastodonProvider_Configure.
  unfold mbind, M_bind, tflog_Debug, log. cbn beta iota.
  fold data. fold diags0.
  revert accepted complete Hcall. subst diags r.
  destruct (Configure_resolve env data diags0) as [r' diags'].
  cbn [fst snd]. intros -> Hcred Hcall.
  unfold client_of, has_credentials, nonempty in *.
  unfold Client_GetAccountCurrentUser, deref, remote, mbind, M_bind, mret, M_ret,
    tflog_Error, tflog_Debug, log, panic.
  destruct (String.eqb (access_token r') "") eqn:Htok; cbn [negb] in *;
    cbn beta iota; cbn [server calls logs mastodon.NewClient];
    unfold mastodon.NewClient in *; rewrite Hcall; cbn beta iota.
  all: destruct err as [e|]; destruct user as [u|]; cbn beta iota;
    cbn [server calls logs]; try reflexivity.
  all: try (cbn [orb] in Hcred; rewrite Hcred; cbn beta iota).
  all: try reflexivity.
  all: match goal with
       | |- context [HasError ?d] => destruct (HasError d)
       end; reflexivity.
Qed.
End ConfigureRun.

Lemma checks_clean (data : MastodonProviderModel) (r : Resolved) :
  no_unknown data = true ->
  valid_combination r = true ->
  forallb (fun chk => negb chk.1) (checks data r) = true.
Proof.
  unfold no_unknown, valid_combination, has_credentials, nonempty.
  cbn [forallb all_fields config_value checks fst].
  intros Hu Hv.
  repeat (apply andb_true_iff in Hu as [? Hu]).
  repeat (apply andb_true_iff in Hv as [Hv ?]).
  repeat (apply andb_true_iff; split); try assumption; try reflexivity.
  destruct (String.eqb (access_token r) ""),
    (String.eqb (user_email r) ""), (String.eqb (user_password r) "");
    done.
Qed.

Lemma checks_missing (data : MastodonProviderModel) (r : Resolved) (m : Missing) :
  is_missing m r = true -> (true, missing_diagnostic m) ∈ checks data r.
Proof.
  intros Hm. unfold checks.
  destruct m; unfold is_missing in Hm.
  - rewrite Hm. do 1 apply list_elem_of_further. apply list_elem_of_here.
  - rewrite Hm. do 3 apply list_elem_of_further. apply list_elem_of_here.
  - rewrite Hm. do 5 apply list_elem_of_further. apply list_elem_of_here.
  - replace (String.eqb (access_token r) ""
             && (String.eqb (user_email r) "" || String.eqb (user_password r) ""))
      with true.
    + do 9 apply list_elem_of_further. apply list_elem_of_here.
    + unfold has_credentials, nonempty in Hm.
      destruct (String.eqb (access_token r) ""),
        (String.eqb (user_email r) ""), (String.eqb (user_password r) "");
        done.
Qed.

Lemma invalid_is_missing (r : Resolved) :
  valid_combination r = false -> exists m, is_missing m r = true.
Proof.
  unfold valid_combination, nonempty. intros Hv.
  destruct (String.eqb (host r) "") eqn:Hh; [by exists MissingHost|].
  destruct (String.eqb (client_id r) "") eqn:Hi; [by exists MissingClientID|].
  destruct (String.eqb (client_secret r) "") eqn:Hs;
    [by exists MissingClientSecret|].
  exists MissingCredentials. cbn [andb negb] in Hv. unfold is_missing.
  rewrite Hv. reflexivity.
Qed.

Lemma missing_is_invalid (r : Resolved) (m : Missing) :
  is_missing m r = true -> valid_combination r = false.
Proof.
  unfold valid_combination, nonempty, is_missing.
  destruct m; intros Hm.
  - rewrite Hm. reflexivity.
  - rewrite Hm. cbn [negb]. rewrite andb_false_r. reflexivity.
  - rewrite Hm. cbn [negb]. rewrite andb_false_r. reflexivity.
  - apply negb_true_iff in Hm. rewrite Hm. apply andb_false_r.
Qed.

Lemma Configure_resolve_clean (env : gmap string string)
    (data : MastodonProviderModel) (diags : diag.Diagnostics) :
  no_unknown data = true ->
  valid_combination (Configure_resolve env data diags).1 = true ->
  (Configure_resolve env data diags).2 = diags.
Proof.
  rewrite Configure_resolve_checks. cbn [fst snd]. intros Hu Hv.
  apply run_checks_none, checks_clean; assumption.
Qed.

Lemma Configure_resolve_missing (env : gmap string string)
    (data : MastodonProviderModel) (diags : diag.Diagnostics) (m : Missing) :
  is_missing m (Configure_resolve env data diags).1 = true ->
  missing_diagnostic m ∈ (Configure_resolve env data diags).2.
Proof.
  rewrite Configure_resolve_checks. cbn [fst snd]. intros Hm.
  apply run_checks_hit, checks_missing. exact Hm.
Qed.

Lemma valid_has_credentials (r : Resolved) :
  valid_combination r = true -> has_credentials r = true.
Proof.
  unfold valid_combination. intros Hv.
  apply andb_true_iff in Hv as [_ Hv]. exact Hv.
Qed.

(** C1, corrected: when a valid credential combination resolves (an
    access token, or an email and a password, with a non-empty host, client
    id and client secret), no configuration value is unknown and the
    validating fetch of the current user succeeds, Configure succeeds and
    hands on the client; when the combination is invalid, Configure fails
    without any remote call, and its diagnostics hold, for every item that
    is missing, an error whose text names that item: all of them, not only
    the first. *)
Theorem configure_checks_credentials :
  forall (Server : Type) (api : MastodonAPI Server) (env : gmap string string)
         (req : provider.ConfigureRequest) (w : World Server),
    let data := Get_data (provider.Config req) in
    let r := (Configure_resolve env data []).1 in
    (valid_combination r = true ->
     no_unknown data = true ->
     HasError (Get_diags (provider.Config req)) = false ->
     forall (s' : Server) (user : mastodon.Account),
       api_GetAccountCurrentUser (client_of r) (server w)
       = (s', (Some user, None)) ->
       exists resp w',
         MastodonProvider_Configure env req provider.empty w = Returned resp w'
         /\ configured_with (client_of r) resp)
    /\ (valid_combination r = false ->
        exists resp w',
          MastodonProvider_Configure env req provider.empty w = Returned resp w'
          /\ configure_failed resp
          /\ calls w' = calls w
          /\ forall m : Missing,
               is_missing m r = true ->
               exists d,
                 d ∈ provider.Diagnostics resp
                 /\ is_error d = true
                 /\ diag.Detail d = missing_detail m).
Proof.
  intros Server api env req w data r.
  set (diags0 := Append (provider.Diagnostics provider.empty)
                        (Get_diags (provider.Config req))).
  split.
  - intros Hv Hu Hd s' user Hcall.
    assert (Hclean : (Configure_resolve env data diags0).2 = diags0)
      by (apply Configure_resolve_clean; assumption).
    assert (Hok : HasError diags0 = false)
      by (subst diags0; rewrite HasError_Append, Hd; reflexivity).
    pose proof (Configure_accepts env req provider.empty w) as Hrun.
    fold data in Hrun. fold diags0 in Hrun. rewrite Hclean in Hrun.
    specialize (Hrun Hok (valid_has_credentials _ Hv) s' (Some user) None Hcall).
    cbn zeta beta iota in Hrun. rewrite Hok in Hrun.
    eexists _, _. split; [exact Hrun|].
    split; [exact Hok|]. split; reflexivity.
  - intros Hv. destruct (invalid_is_missing r Hv) as [m0 Hm0].
    assert (Herr : HasError (Configure_resolve env data diags0).2 = true).
    { apply HasError_elem. exists (missing_diagnostic m0).
      split; [|reflexivity]. apply Configure_resolve_missing. exact Hm0. }
    pose proof (Configure_rejects env req provider.empty w Herr) as Hrun.
    eexists _, _. split; [exact Hrun|].
    split; [split; [exact Herr|split; reflexivity]|].
    split; [reflexivity|].
    intros m Hm. exists (missing_diagnostic m). split; [|split; reflexivity].
    apply (Configure_resolve_missing env data diags0 m Hm).
Qed.

Lemma configure_checks_credentials_witness :
  (exists resp w',
      MastodonProvider_Configure Examples.no_env
        (request_of Examples.token_config) provider.empty
        (RefServer.world RefServer.initial) = Returned resp w'
      /\ configured_with Examples.client resp)
  /\ (exists resp w',
        MastodonProvider_Configure Examples.no_env
          (request_of Examples.empty_config) provider.empty
          (RefServer.world RefServer.initial) = Returned resp w'
        /\ configure_failed resp
        /\ calls w' = []
        /\ forall m : Missing,
             is_missing m (mkResolved "" "" "" "" "" "") = true ->
             exists d,
               d ∈ provider.Diagnostics resp
               /\ is_error d = true
               /\ diag.Detail d = missing_detail m).
Proof.
  split.
  - apply (proj1 (configure_checks_credentials RefServer.State RefServer.api
        Examples.no_env (request_of Examples.token_config)
        (RefServer.world RefServer.initial))
        eq_refl eq_refl eq_refl RefServer.initial RefServer.me eq_refl).
  - apply (proj2 (configure_checks_credentials RefServer.State RefServer.api
        Examples.no_env (request_of Examples.empty_config)
        (RefServer.world RefServer.initial)) eq_refl).
Defined.

(** C1 does not hold for every valid combination: an access token with
    host, client id and client secret resolves, and Configure fails all the
    same, once because the email is an unknown value, once because the
    server rejects the token. *)
Lemma configure_valid_combination_can_fail :
  (valid_combination
     (Configure_resolve Examples.no_env Examples.unknown_email_config []).1
   = true
   /\ exists resp w',
       MastodonProvider_Configure Examples.no_env
         (request_of Examples.unknown_email_config) provider.empty
         (RefServer.world RefServer.initial) = Returned resp w'
       /\ configure_failed resp
       /\ provider.Diagnostics resp = [unknown_diagnostic FieldEmail]
       /\ calls w' = [])
  /\ (valid_combination
        (Configure_resolve Examples.no_env Examples.token_config []).1 = true
      /\ no_unknown Examples.token_config = true
      /\ exists w',
          MastodonProvider_Configure Examples.no_env
            (request_of Examples.token_config) provider.empty
            (RefServer.world Examples.rejecting_server)
          = Panicked nil_dereference w').
Proof.
  split.
  - split; [reflexivity|]. eexists _, _.
    split; [vm_compute; reflexivity|].
    split; [split; [reflexivity|split; reflexivity]|].
    split; reflexivity.
  - split; [reflexivity|]. split; [reflexivity|].
    eexists. vm_compute. reflexivity.
Qed.

(** C2: when the credentials pass the checks and the fetch of the current
    user returns an error, Configure goes on to read the Acct field of the
    account it was returned before it returns: with a nil account it panics
    on a nil dereference, and with a non-nil account it logs the Acct, then
    fails with the error of the fetch.  So that branch is free of a nil
    dereference only if the fetch returns a non-nil account along with its
    error. *)
Theorem configure_reads_account_after_fetch_error :
  forall (Server : Type) (api : MastodonAPI Server) (env : gmap string string)
         (req : provider.ConfigureRequest) (w : World Server)
         (s' : Server) (user : option mastodon.Account) (e : string),
    let data := Get_data (provider.Config req) in
    let r := (Configure_resolve env data []).1 in
    valid_combination r = true ->
    no_unknown data = true ->
    HasError (Get_diags (provider.Config req)) = false ->
    api_GetAccountCurrentUser (client_of r) (server w) = (s', (user, Some e)) ->
    match user with
    | None =>
        exists w',
          MastodonProvider_Configure env req provider.empty w
          = Panicked nil_dereference w'
    | Some account =>
        exists resp w',
          MastodonProvider_Configure env req provider.empty w = Returned resp w'
          /\ last (logs w')
             = Some (entry_debug ("mastodon_provider current user: "
                                  +:+ mastodon.Acct account))
          /\ NewErrorDiagnostic
               "Mastodon GetAccountCurrentUser Failed, API is not usable." e
             ∈ provider.Diagnostics resp
          /\ configure_failed resp
    end.
Proof.
  intros Server api env req w s' user e data r Hv Hu Hd Hcall.
  set (diags0 := Append (provider.Diagnostics provider.empty)
                        (Get_diags (provider.Config req))).
  assert (Hclean : (Configure_resolve env data diags0).2 = diags0)
    by (apply Configure_resolve_clean; assumption).
  assert (Hok : HasError diags0 = false)
    by (subst diags0; rewrite HasError_Append, Hd; reflexivity).
  pose proof (Configure_accepts env req provider.empty w) as Hrun.
  fold data in Hrun. fold diags0 in Hrun. rewrite Hclean in Hrun.
  specialize (Hrun Hok (valid_has_credentials _ Hv) s' user (Some e) Hcall).
  cbn zeta beta iota in Hrun.
  destruct user as [account|].
  - rewrite HasError_AddError in Hrun.
    eexists _, _. split; [exact Hrun|]. split.
    + cbn [logs]. apply last_snoc.
    + split.
      * apply elem_of_AddError. right. reflexivity.
      * split; [apply HasError_AddError|split; reflexivity].
  - eexists. exact Hrun.
Qed.

Lemma configure_reads_account_after_fetch_error_witness :
  (exists w',
      MastodonProvider_Configure Examples.no_env
        (request_of Examples.token_config) provider.empty
        (RefServer.world Examples.rejecting_server)
      = Panicked nil_dereference w')
  /\ (exists resp w',
        @MastodonProvider_Configure unit Examples.failing_client
          Examples.password_env (request_of Examples.empty_config)
          provider.empty (mkWorld tt [] [])
        = Returned resp w'
        /\ last (logs w')
           = Some (entry_debug "mastodon_provider current user: ")
        /\ NewErrorDiagnostic
             "Mastodon GetAccountCurrentUser Failed, API is not usable."
             Examples.unavailable
           ∈ provider.Diagnostics resp
        /\ configure_failed resp).
Proof.
  split.
  - apply (configure_reads_account_after_fetch_error RefServer.State
             RefServer.api Examples.no_env (request_of Examples.token_config)
             (RefServer.world Examples.rejecting_server)
             Examples.rejecting_server None RefServer.unauthorized
             eq_refl eq_refl eq_refl eq_refl).
  - apply (configure_reads_account_after_fetch_error unit
             Examples.failing_client Examples.password_env
             (request_of Examples.empty_config) (mkWorld tt [] [])
             tt (Some Examples.zero_account) Examples.unavailable
             eq_refl eq_refl eq_refl eq_refl).
Defined.

(** * Further properties *)

(** ** Provider configuration: which inputs reach the server *)

Lemma run_checks_elem (l : list (bool * diag.Diagnostic))
    (diags : diag.Diagnostics) (d : diag.Diagnostic) :
  d ∈ fold_left run_check l diags -> d ∈ diags \/ (true, d) ∈ l.
Proof.
  revert diags. induction l as [|[b x] l IH]; intros diags Hd; simpl in Hd.
  - left. exact Hd.
  - apply IH in Hd as [Hd|Hd].
    + unfold run_check in Hd. cbn [fst snd] in Hd. destruct b.
      * apply elem_of_Append in Hd as [Hd|Hd]; [left; exact Hd|].
        apply list_elem_of_singleton in Hd as ->.
        right. apply list_elem_of_here.
      * left. exact Hd.
    + right. apply list_elem_of_further. exact Hd.
Qed.

Lemma checks_are_errors (data : MastodonProviderModel) (r : Resolved)
    (b : bool) (d : diag.Diagnostic) :
  (b, d) ∈ checks data r -> is_error d = true.
Proof.
  unfold checks. intros Hin.
  repeat (apply elem_of_cons in Hin as [[= _ ->]|Hin];
          [first [reflexivity | by destruct r]|]).
  by apply elem_of_nil in Hin.
Qed.

Lemma checks_clean_inv (data : MastodonProviderModel) (r : Resolved) :
  forallb (fun chk => negb chk.1) (checks data r) = true ->
  no_unknown data = true /\ valid_combination r = true.
Proof.
  unfold no_unknown, valid_combination, has_credentials, nonempty.
  cbn [forallb all_fields config_value checks fst]. intros Hall.
  repeat (apply andb_true_iff in Hall as [? Hall]).
  split.
  - repeat (apply andb_true_iff; split); try assumption; reflexivity.
  - repeat (apply andb_true_iff; split); try assumption.
    destruct (String.eqb (access_token r) ""),
      (String.eqb (user_email r) ""), (String.eqb (user_password r) "");
      done.
Qed.

Lemma run_checks_no_error (data : MastodonProviderModel) (r : Resolved)
    (diags : diag.Diagnostics) :
  HasError (fold_left run_check (checks data r) diags) = false ->
  HasError diags = false
  /\ forallb (fun chk => negb chk.1) (checks data r) = true.
Proof.
  intros Hno. split.
  - destruct (HasError diags) eqn:He; [|reflexivity].
    apply HasError_elem in He as (d & Hd & Hde).
    rewrite <- Hno. symmetry. apply HasError_elem. exists d.
    split; [|exact Hde]. apply run_checks_mono. exact Hd.
  - apply forallb_forall. intros [b d] Hin. cbn [fst].
    destruct b; [|reflexivity]. exfalso.
    apply list_elem_of_In in Hin.
    assert (Herr : HasError (fold_left run_check (checks data r) diags) = true).
    { apply HasError_elem. exists d. split.
      - apply run_checks_hit. exact Hin.
      - apply (checks_are_errors data r true d Hin). }
    rewrite Hno in Herr. discriminate.
Qed.

(** [Configure_resolve] leaves no error behind exactly when it started
    without one, nothing is unknown and the combination is valid. *)
Lemma Configure_resolve_no_error (env : gmap string string)
    (data : MastodonProviderModel) (diags : diag.Diagnostics) :
  HasError (Configure_resolve env data diags).2
  = negb (negb (HasError diags) && no_unknown data
          && valid_combination (Configure_resolve env data diags).1).
Proof.
  destruct (HasError (Configure_resolve env data diags).2) eqn:He.
  - symmetry. apply negb_true_iff.
    destruct (negb (HasError diags) && no_unknown data
              && valid_combination (Configure_resolve env data diags).1) eqn:Hok;
      [|reflexivity].
    apply andb_true_iff in Hok as [Hok Hv].
    apply andb_true_iff in Hok as [Hd Hu].
    rewrite (Configure_resolve_clean env data diags Hu Hv) in He.
    apply negb_true_iff in Hd. congruence.
  - symmetry. apply negb_false_iff.
    rewrite Configure_resolve_checks in He. cbn [snd] in He.
    apply run_checks_no_error in He as [Hd Hall].
    apply checks_clean_inv in Hall as [Hu Hv].
    rewrite Hd, Hu. rewrite Configure_resolve_checks. cbn [fst].
    rewrite Hv. reflexivity.
Qed.

Lemma checks_pass_spec (env : gmap string string)
    (req : provider.ConfigureRequest) :
  HasError
    (Configure_resolve env (Get_data (provider.Config req))
       (Append (provider.Diagnostics provider.empty)
               (Get_diags (provider.Config req)))).2
  = negb (checks_pass env req).
Proof.
  rewrite Configure_resolve_no_error. unfold checks_pass.
  rewrite HasError_Append. reflexivity.
Qed.

Lemma checks_unknown (data : MastodonProviderModel) (r : Resolved) (f : Field) :
  String_IsUnknown (config_value f data) = true ->
  (true, unknown_diagnostic f) ∈ checks data r.
Proof.
  intros Hu. unfold checks. destruct f; cbn [config_value] in Hu; rewrite Hu.
  - apply list_elem_of_here.
  - do 2 apply list_elem_of_further. apply list_elem_of_here.
  - do 4 apply list_elem_of_further. apply list_elem_of_here.
  - do 6 apply list_elem_of_further. apply list_elem_of_here.
  - do 7 apply list_elem_of_further. apply list_elem_of_here.
  - do 8 apply list_elem_of_further. apply list_elem_of_here.
Qed.

Lemma unknown_resolves_empty (env : gmap string string)
    (data : MastodonProviderModel) (f : Field) :
  String_IsUnknown (config_value f data) = true ->
  resolve_field env data f = "".
Proof.
  unfold resolve_field. destruct (config_value f data); try discriminate.
  reflexivity.
Qed.

(** X1: a configuration value that is unknown makes Configure fail before any
    remote call, with the "Unknown ..." diagnostic of that field among its
    diagnostics.  The unknown value hides the environment variable of the
    field: the field resolves to the empty string, so an unknown host, client
    id or client secret is reported as missing as well. *)
Theorem configure_rejects_unknown_values :
  forall (Server : Type) (api : MastodonAPI Server) (env : gmap string string)
         (req : provider.ConfigureRequest) (w : World Server) (f : Field),
    let data := Get_data (provider.Config req) in
    let r := (Configure_resolve env data []).1 in
    String_IsUnknown (config_value f data) = true ->
    resolved_value f r = ""
    /\ exists resp w',
        MastodonProvider_Configure env req provider.empty w = Returned resp w'
        /\ configure_failed resp
        /\ calls w' = calls w
        /\ server w' = server w
        /\ unknown_diagnostic f ∈ provider.Diagnostics resp
        /\ forall m : Missing,
             missing_of_field f = Some m ->
             missing_diagnostic m ∈ provider.Diagnostics resp.
Proof.
  intros Server api env req w f data r Hu.
  set (diags0 := Append (provider.Diagnostics provider.empty)
                        (Get_diags (provider.Config req))).
  assert (Hres : resolved_value f r = "").
  { subst r. rewrite Configure_resolve_fst.
    apply unknown_resolves_empty. exact Hu. }
  split; [exact Hres|].
  assert (Hin : unknown_diagnostic f ∈ (Configure_resolve env data diags0).2).
  { rewrite Configure_resolve_checks. cbn [snd].
    apply run_checks_hit, checks_unknown. exact Hu. }
  assert (Herr : HasError (Configure_resolve env data diags0).2 = true).
  { apply HasError_elem. exists (unknown_diagnostic f).
    split; [exact Hin|]. by destruct f. }
  pose proof (Configure_rejects env req provider.empty w Herr) as Hrun.
  eexists _, _. split; [exact Hrun|].
  split; [split; [exact Herr|split; reflexivity]|].
  split; [reflexivity|]. split; [reflexivity|]. split; [exact Hin|].
  intros m Hm. apply (Configure_resolve_missing env data diags0 m).
  change (Configure_resolve env data diags0).1 with r.
  destruct f; try discriminate; injection Hm as <-; cbn [is_missing];
    cbn [resolved_value] in Hres; rewrite Hres; reflexivity.
Qed.

Lemma configure_rejects_unknown_values_witness :
  resolved_value FieldHost
    (Configure_resolve Examples.password_env Examples.unknown_host_config []).1
  = ""
  /\ exists resp w',
      MastodonProvider_Configure Examples.password_env
        (request_of Examples.unknown_host_config) provider.empty
        (RefServer.world RefServer.initial) = Returned resp w'
      /\ configure_failed resp
      /\ calls w' = []
      /\ server w' = RefServer.initial
      /\ unknown_diagnostic FieldHost ∈ provider.Diagnostics resp
      /\ forall m : Missing,
           missing_of_field FieldHost = Some m ->
           missing_diagnostic m ∈ provider.Diagnostics resp.
Proof.
  apply (configure_rejects_unknown_values RefServer.State RefServer.api
           Examples.password_env (request_of Examples.unknown_host_config)
           (RefServer.world RefServer.initial) FieldHost eq_refl).
Defined.

(** X2: Configure makes a remote call exactly when decoding reported no
    error, no configuration value is unknown and the resolved combination is
    valid.  It then makes one call, the fetch of the current user, with the
    client built from the resolved host, client id, client secret and access
    token; otherwise it makes none and leaves the server as it was.  This
    holds whether Configure returns or panics. *)
Theorem configure_calls_server_only_after_checks :
  forall (Server : Type) (api : MastodonAPI Server) (env : gmap string string)
         (req : provider.ConfigureRequest) (w : World Server),
    let r := (Configure_resolve env (Get_data (provider.Config req)) []).1 in
    let c := client_of r in
    let w' := world_of (MastodonProvider_Configure env req provider.empty w) in
    calls w'
    = (if checks_pass env req
       then (calls w ++ [CallGetAccountCurrentUser c])%list
       else calls w)
    /\ server w'
       = (if checks_pass env req
          then (api_GetAccountCurrentUser c (server w)).1
          else server w).
Proof.
  intros Server api env req w r c w'. subst w'.
  pose proof (checks_pass_spec env req) as Hspec.
  destruct (checks_pass env req) eqn:Hpass; cbn [negb] in Hspec.
  - assert (Hv : valid_combination r = true).
    { unfold checks_pass in Hpass. apply andb_true_iff in Hpass as [_ Hv].
      exact Hv. }
    destruct (api_GetAccountCurrentUser c (server w)) as [s' [user err]] eqn:Hc.
    rewrite (Configure_accepts env req provider.empty w Hspec
               (valid_has_credentials _ Hv) s' user err Hc).
    destruct user; split; reflexivity.
  - rewrite (Configure_rejects env req provider.empty w Hspec).
    split; reflexivity.
Qed.

(** X3: when Configure returns a response that hands on a client, its checks
    passed and the fetch of the current user returned an account and no
    error; the client is the one built from the resolved values, the same for
    data sources and resources, and the diagnostics are those of the decoding
    with no error among them.  A fetch that reports an error never leaves a
    client behind. *)
Theorem configure_hands_on_client_only_after_fetch :
  forall (Server : Type) (api : MastodonAPI Server) (env : gmap string string)
         (req : provider.ConfigureRequest) (w w' : World Server)
         (resp : provider.ConfigureResponse),
    let r := (Configure_resolve env (Get_data (provider.Config req)) []).1 in
    MastodonProvider_Configure env req provider.empty w = Returned resp w' ->
    provider.DataSourceData resp <> any_nil
    \/ provider.ResourceData resp <> any_nil ->
    checks_pass env req = true
    /\ (exists user,
          (api_GetAccountCurrentUser (client_of r) (server w)).2
          = (Some user, None))
    /\ configured_with (client_of r) resp
    /\ provider.Diagnostics resp = Append [] (Get_diags (provider.Config req)).
Proof.
  intros Server api env req w w' resp r Hrun Hclient.
  pose proof (checks_pass_spec env req) as Hspec.
  destruct (checks_pass env req) eqn:Hpass; cbn [negb] in Hspec.
  - assert (Hv : valid_combination r = true).
    { unfold checks_pass in Hpass. apply andb_true_iff in Hpass as [_ Hv].
      exact Hv. }
    assert (Hu : no_unknown (Get_data (provider.Config req)) = true).
    { unfold checks_pass in Hpass. apply andb_true_iff in Hpass as [Hp _].
      apply andb_true_iff in Hp as [_ Hu]. exact Hu. }
    destruct (api_GetAccountCurrentUser (client_of r) (server w))
      as [s' [user err]] eqn:Hc.
    rewrite (Configure_accepts env req provider.empty w Hspec
               (valid_has_credentials _ Hv) s' user err Hc) in Hrun.
    rewrite (Configure_resolve_clean env _ _ Hu Hv) in Hrun, Hspec.
    destruct user as [user|]; [|discriminate Hrun].
    destruct err as [e|].
    + rewrite HasError_AddError in Hrun. injection Hrun as <- _.
      destruct Hclient as [Hn|Hn]; exfalso; apply Hn; reflexivity.
    + rewrite Hspec in Hrun. injection Hrun as <- _.
      split; [reflexivity|]. split; [by exists user|].
      split; [|reflexivity].
      split; [exact Hspec|split; reflexivity].
  - rewrite (Configure_rejects env req provider.empty w Hspec) in Hrun.
    injection Hrun as <- _.
    destruct Hclient as [Hn|Hn]; exfalso; apply Hn; reflexivity.
Qed.

Lemma configure_hands_on_client_only_after_fetch_witness :
  checks_pass Examples.no_env (request_of Examples.token_config) = true
  /\ (exists user,
        (api_GetAccountCurrentUser Examples.client RefServer.initial).2
        = (Some user, None))
  /\ configured_with Examples.client
       (provider.mkConfigureResponse []
          (any_Client (Some Examples.client))
          (any_Client (Some Examples.client)))
  /\ [] = Append [] (Get_diags (provider.Config (request_of Examples.token_config))).
Proof.
  apply (configure_hands_on_client_only_after_fetch RefServer.State
           RefServer.api Examples.no_env (request_of Examples.token_config)
           (RefServer.world RefServer.initial)
           (world_of (MastodonProvider_Configure Examples.no_env
                        (request_of Examples.token_config) provider.empty
                        (RefServer.world RefServer.initial)))
           (provider.mkConfigureResponse []
              (any_Client (Some Examples.client))
              (any_Client (Some Examples.client)))).
  - vm_compute. reflexivity.
  - left. discriminate.
Defined.

(** ** Provider configuration: what the email and password are used for *)

(** X4: the values of email and password have no influence on Configure
    beyond being set: two provider blocks that agree on host, client id,
    client secret and access token and both give a non-empty email and a
    non-empty password produce the same outcome, the same remote call and
    the same log.  Neither value reaches the client. *)
Theorem configure_ignores_email_and_password_values :
  forall (Server : Type) (api : MastodonAPI Server) (env : gmap string string)
         (data1 data2 : MastodonProviderModel) (decoding : diag.Diagnostics)
         (w : World Server) (e1 p1 e2 p2 : string),
    Host data1 = Host data2 ->
    ClientID data1 = ClientID data2 ->
    ClientSecret data1 = ClientSecret data2 ->
    AccessToken data1 = AccessToken data2 ->
    Email data1 = types.StringValue e1 -> nonempty e1 = true ->
    Password data1 = types.StringValue p1 -> nonempty p1 = true ->
    Email data2 = types.StringValue e2 -> nonempty e2 = true ->
    Password data2 = types.StringValue p2 -> nonempty p2 = true ->
    MastodonProvider_Configure env
      (provider.mkConfigureRequest (mkDecoded data1 decoding)) provider.empty w
    = MastodonProvider_Configure env
        (provider.mkConfigureRequest (mkDecoded data2 decoding)) provider.empty w.
Proof.
  intros Server api env [h1 i1 s1 m1 q1 t1] [h2 i2 s2 m2 q2 t2] decoding w
    e1 p1 e2 p2. cbn [Host ClientID ClientSecret AccessToken Email Password].
  intros <- <- <- <- -> He1 -> Hp1 -> He2 -> Hp2.
  set (d1 := mkMastodonProviderModel h1 i1 s1 (types.StringValue e1)
               (types.StringValue p1) t1).
  set (d2 := mkMastodonProviderModel h1 i1 s1 (types.StringValue e2)
               (types.StringValue p2) t1).
  set (req1 := provider.mkConfigureRequest (mkDecoded d1 decoding)).
  set (req2 := provider.mkConfigureRequest (mkDecoded d2 decoding)).
  set (diags0 := Append (provider.Diagnostics provider.empty) decoding).
  unfold nonempty in He1, Hp1, He2, Hp2.
  apply negb_true_iff in He1, Hp1, He2, Hp2.
  assert (Hdiags : (Configure_resolve env d1 diags0).2
                   = (Configure_resolve env d2 diags0).2).
  { rewrite !Configure_resolve_checks. cbn [snd]. f_equal.
    unfold checks, resolve_all, resolve_field, d1, d2.
    cbn [config_value Host ClientID ClientSecret Email Password AccessToken
         host client_id client_secret user_email user_password access_token
         String_IsNull String_IsUnknown String_ValueString negb].
    rewrite He1, Hp1, He2, Hp2. reflexivity. }
  assert (Hcred1 : has_credentials (Configure_resolve env d1 diags0).1 = true).
  { rewrite Configure_resolve_checks. cbn [fst].
    unfold has_credentials, nonempty, resolve_all, resolve_field, d1.
    cbn [config_value Email Password AccessToken user_email user_password
         access_token String_IsNull String_ValueString negb].
    rewrite He1, Hp1. apply orb_true_r. }
  assert (Hcred2 : has_credentials (Configure_resolve env d2 diags0).1 = true).
  { rewrite Configure_resolve_checks. cbn [fst].
    unfold has_credentials, nonempty, resolve_all, resolve_field, d2.
    cbn [config_value Email Password AccessToken user_email user_password
         access_token String_IsNull String_ValueString negb].
    rewrite He2, Hp2. apply orb_true_r. }
  destruct (HasError (Configure_resolve env d1 diags0).2) eqn:Herr.
  - rewrite (Configure_rejects env req1 provider.empty w Herr).
    rewrite Hdiags in Herr.
    rewrite (Configure_rejects env req2 provider.empty w Herr).
    cbn [Get_data provider.Config req1 req2 Get_diags]. fold diags0.
    rewrite Hdiags. reflexivity.
  - destruct (api_GetAccountCurrentUser
                (client_of (Configure_resolve env d1 diags0).1) (server w))
      as [s' [user err]] eqn:Hcall.
    rewrite (Configure_accepts env req1 provider.empty w Herr Hcred1
               s' user err Hcall).
    rewrite Hdiags in Herr.
    rewrite (Configure_accepts env req2 provider.empty w Herr Hcred2
               s' user err Hcall).
    cbn [Get_data provider.Config req1 req2 Get_diags]. fold diags0.
    rewrite Hdiags. reflexivity.
Qed.

Lemma configure_ignores_email_and_password_values_witness :
  MastodonProvider_Configure Examples.no_env
    (provider.mkConfigureRequest
       (mkDecoded (Examples.password_config "a@mastodon.example" "hunter2") []))
    provider.empty (RefServer.world RefServer.initial)
  = MastodonProvider_Configure Examples.no_env
      (provider.mkConfigureRequest
         (mkDecoded (Examples.password_config "b@mastodon.example" "swordfish") []))
      provider.empty (RefServer.world RefServer.initial).
Proof.
  apply (configure_ignores_email_and_password_values RefServer.State
           RefServer.api Examples.no_env
           (Examples.password_config "a@mastodon.example" "hunter2")
           (Examples.password_config "b@mastodon.example" "swordfish") []
           (RefServer.world RefServer.initial)
           "a@mastodon.example" "hunter2" "b@mastodon.example" "swordfish"
           eq_refl eq_refl eq_refl eq_refl eq_refl eq_refl eq_refl eq_refl
           eq_refl eq_refl eq_refl eq_refl).
Defined.

(** ** Provider configuration: where its diagnostics point *)

(** X5: every diagnostic Configure adds before its remote call is an error
    attached to a root path, one of host, client-id, client-secret,
    user-email, user-password and user-access-token; of these only host is
    the name of an attribute of the provider schema. *)
Theorem configure_diagnostic_paths :
  forall (env : gmap string string) (data : MastodonProviderModel)
         (diags : diag.Diagnostics) (d : diag.Diagnostic),
    d ∈ (Configure_resolve env data diags).2 ->
    d ∉ diags ->
    is_error d = true
    /\ exists name : string,
        diag.Path_of d = Some (path.Root name)
        /\ name ∈ configure_paths
        /\ (is_Some (MastodonProvider_Schema !! name) <-> name = "host").
Proof.
  intros env data diags d Hd Hnew.
  rewrite Configure_resolve_checks in Hd. cbn [snd] in Hd.
  apply run_checks_elem in Hd as [Hd|Hd]; [contradiction|].
  split; [apply (checks_are_errors _ _ _ _ Hd)|].
  unfold checks in Hd.
  repeat (apply elem_of_cons in Hd as [[= _ ->]|Hd];
          [eexists; split; [reflexivity|];
           split; [apply list_elem_of_In; cbn; tauto|];
           split; [intros [a Ha]; vm_compute in Ha;
                   first [discriminate Ha | reflexivity]
                  |intros He; first [discriminate He
                                    | eexists; vm_compute; reflexivity]]|]).
  by apply elem_of_nil in Hd.
Qed.

Lemma configure_diagnostic_paths_witness :
  is_error (missing_diagnostic MissingClientID) = true
  /\ exists name : string,
      diag.Path_of (missing_diagnostic MissingClientID) = Some (path.Root name)
      /\ name ∈ configure_paths
      /\ (is_Some (MastodonProvider_Schema !! name) <-> name = "host").
Proof.
  apply (configure_diagnostic_paths Examples.no_env Examples.empty_config []
           (missing_diagnostic MissingClientID)).
  - apply Configure_resolve_missing. reflexivity.
  - apply not_elem_of_nil.
Defined.

(** ** The acceptance-test precheck and the provider *)

(** X6: an environment on which the acceptance-test precheck records no
    failure lets Configure pass all its checks with an empty provider block:
    host, client id, client secret and access token are taken from the
    environment, and the client is built from exactly these four.  The
    precheck asks for more than Configure does: an environment that gives an
    email and a password and no access token passes the checks of Configure
    and fails the precheck. *)
Theorem precheck_environment_passes_configure :
  (forall env : gmap string string,
      testAccPreCheck env = [] ->
      let r := (Configure_resolve env Examples.empty_config []).1 in
      checks_pass env (request_of Examples.empty_config) = true
      /\ client_of r
         = mastodon.NewClient
             (mastodon.mkConfig (Getenv env "MASTODON_HOST")
                (Getenv env "MASTODON_CLIENT_ID")
                (Getenv env "MASTODON_CLIENT_SECRET")
                (Getenv env "MASTODON_ACCESS_TOKEN"))
      /\ nonempty (Getenv env "MASTODON_ACCESS_TOKEN") = true)
  /\ (checks_pass Examples.password_env (request_of Examples.empty_config)
      = true
      /\ testAccPreCheck Examples.password_env
         = ["MASTODON_ACCESS_TOKEN must be set for acceptance tests"]).
Proof.
  split; [|split; reflexivity].
  intros env Hpre r. unfold testAccPreCheck, assert_NotEmpty in Hpre.
  destruct (String.eqb (Getenv env "MASTODON_HOST") "") eqn:Hh;
    destruct (String.eqb (Getenv env "MASTODON_CLIENT_ID") "") eqn:Hi;
    destruct (String.eqb (Getenv env "MASTODON_CLIENT_SECRET") "") eqn:Hs;
    destruct (String.eqb (Getenv env "MASTODON_ACCESS_TOKEN") "") eqn:Ht;
    try discriminate Hpre.
  subst r. rewrite Configure_resolve_checks. cbn [fst].
  unfold checks_pass. rewrite Configure_resolve_checks. cbn [fst].
  unfold valid_combination, has_credentials, client_of, nonempty,
    resolve_all, resolve_field.
  cbn [request_of provider.Config Get_data Get_diags HasError existsb negb
       Examples.empty_config config_value Host ClientID ClientSecret Email
       Password AccessToken String_IsNull env_var
       host client_id client_secret access_token user_email user_password].
  rewrite Hh, Hi, Hs, Ht. split; [reflexivity|]. split; reflexivity.
Qed.

Lemma precheck_environment_passes_configure_witness :
  checks_pass Examples.token_env (request_of Examples.empty_config) = true
  /\ client_of (Configure_resolve Examples.token_env Examples.empty_config []).1
     = mastodon.NewClient
         (mastodon.mkConfig (Getenv Examples.token_env "MASTODON_HOST")
            (Getenv Examples.token_env "MASTODON_CLIENT_ID")
            (Getenv Examples.token_env "MASTODON_CLIENT_SECRET")
            (Getenv Examples.token_env "MASTODON_ACCESS_TOKEN"))
  /\ nonempty (Getenv Examples.token_env "MASTODON_ACCESS_TOKEN") = true.
Proof.
  apply (proj1 precheck_environment_passes_configure Examples.token_env
           eq_refl).
Defined.

(** ** The adapters: failures *)

Section PostFailures.

Context {Server : Type} `{MastodonAPI Server} `{bluemonday.Library}.

Variables (r : PostResource.PostResource) (c : mastodon.Client).
Variables (req : PostResource.Request) (resp : PostResource.Response).
Variable w : World Server.

Let data := Get_data (PostResource.Source req).
Let id := String_ValueString (PostResource.Id data).
Let diags :=
  Append (PostResource.Diagnostics resp) (Get_diags (PostResource.Source req)).

Lemma post_decode_error :
  HasError diags = true ->
  PostResource.Create r req resp w
  = Returned (PostResource.mkResponse (PostResource.State resp) diags) w
  /\ PostResource.Read r req resp w
     = Returned (PostResource.mkResponse (PostResource.State resp) diags) w
  /\ PostResource.Update r req resp w
     = Returned (PostResource.mkResponse (PostResource.State resp) diags) w
  /\ PostResource.Delete r req resp w
     = Returned (PostResource.mkResponse (PostResource.State resp) diags) w.
Proof.
  intros Herr.
  unfold PostResource.Create, PostResource.Read, PostResource.Update,
    PostResource.Delete, PostResource.decode.
  cbn [PostResource.Diagnostics PostResource.State]. fold data. fold diags.
  rewrite Herr. repeat split.
Qed.

Hypothesis decoded : HasError diags = false.
Hypothesis configured : PostResource.client r = Some c.

Lemma post_create_error (s' : Server) (post : option mastodon.Status)
    (e : string) :
  api_PostStatus c (PostResource.toot_of data) (server w)
  = (s', (post, Some e)) ->
  PostResource.Create r req resp w
  = Returned
      (PostResource.mkResponse (PostResource.State resp)
         (AddError diags "Client Error"
            ("Unable to create post, got error: " +:+ e)))
      (mkWorld s'
         (calls w ++ [CallPostStatus c (PostResource.toot_of data)])%list
         (logs w)).
Proof.
  intros Hpost.
  unfold PostResource.Create, PostResource.decode, Client_PostStatus.
  simpl. fold data. fold diags. rewrite decoded, configured.
  run_monad. rewrite Hpost. reflexivity.
Qed.

Lemma post_update_error (s' : Server) (post : option mastodon.Status)
    (e : string) :
  api_UpdateStatus c (PostResource.toot_of data) id (server w)
  = (s', (post, Some e)) ->
  PostResource.Update r req resp w
  = Returned
      (PostResource.mkResponse (PostResource.State resp)
         (AddError diags "Client Error"
            ("Unable to read post, got error: " +:+ e)))
      (mkWorld s'
         (calls w ++ [CallUpdateStatus c (PostResource.toot_of data) id])%list
         (logs w)).
Proof.
  intros Hup.
  unfold PostResource.Update, PostResource.decode, Client_UpdateStatus.
  simpl. fold data. fold diags. rewrite decoded, configured.
  run_monad. fold id. rewrite Hup. reflexivity.
Qed.

Lemma post_read_success_state (s' : Server) (post : mastodon.Status) :
  api_GetStatus c id (server w) = (s', (Some post, None)) ->
  PostResource.Read r req resp w
  = Returned
      (PostResource.mkResponse
         (Some (PostResource.mkModel
                  (types.StringValue (mastodon.Status_ID post))
                  (types.StringValue (time.String_of (mastodon.CreatedAt post)))
                  (types.StringValue
                     (mastodon.Account_ID (mastodon.Status_Account post)))
                  (types.StringValue
                     (bluemonday.Sanitize bluemonday.NewPolicy
                        (mastodon.Content post)))
                  (types.StringValue (mastodon.Status_Visibility post))
                  (types.BoolValue (mastodon.Status_Sensitive post))
                  (if Bool_IsNull (PostResource.PreserveOnDestroy data)
                   then types.BoolValue false
                   else PostResource.PreserveOnDestroy data)))
         diags)
      (mkWorld s' (calls w ++ [CallGetStatus c id])%list (logs w)).
Proof.
  intros Hget.
  unfold PostResource.Read, PostResource.decode, Client_GetStatus.
  simpl. fold data. fold diags. rewrite decoded, configured.
  run_monad. fold id. rewrite Hget. simpl.
  destruct (Bool_IsNull (PostResource.PreserveOnDestroy data)); reflexivity.
Qed.

Lemma post_nil_status :
  (forall s', api_PostStatus c (PostResource.toot_of data) (server w)
              = (s', (None, None)) ->
              PostResource.Create r req resp w
              = Panicked nil_dereference
                  (mkWorld s'
                     (calls w
                      ++ [CallPostStatus c (PostResource.toot_of data)])%list
                     (logs w)))
  /\ (forall s', api_GetStatus c id (server w) = (s', (None, None)) ->
                 PostResource.Read r req resp w
                 = Panicked nil_dereference
                     (mkWorld s' (calls w ++ [CallGetStatus c id])%list
                        (logs w)))
  /\ (forall s', api_UpdateStatus c (PostResource.toot_of data) id (server w)
                 = (s', (None, None)) ->
                 PostResource.Update r req resp w
                 = Panicked nil_dereference
                     (mkWorld s'
                        (calls w
                         ++ [CallUpdateStatus c (PostResource.toot_of data)
                               id])%list
                        (logs w))).
Proof.
  repeat split; intros s' Hcall;
    unfold PostResource.Create, PostResource.Read, PostResource.Update,
      PostResource.decode, Client_PostStatus, Client_GetStatus,
      Client_UpdateStatus;
    simpl; fold data; fold diags; rewrite decoded, configured;
    run_monad; fold id; rewrite Hcall; reflexivity.
Qed.

End PostFailures.

Section AccountFailures.

Context {Server : Type} `{MastodonAPI Server}.

Variables (d : AccountDataSource.AccountDataSource) (c : mastodon.Client).
Variables (req : AccountDataSource.ReadRequest)
          (resp : AccountDataSource.ReadResponse).
Variable w : World Server.

Let data := Get_data (AccountDataSource.Config req).
Let username := String_ValueString (AccountDataSource.Username data).
Let diags :=
  Append (AccountDataSource.Diagnostics resp)
         (Get_diags (AccountDataSource.Config req)).

Lemma account_decode_error :
  HasError diags = true ->
  AccountDataSource.Read d req resp w
  = Returned
      (AccountDataSource.mkReadResponse (AccountDataSource.State resp) diags)
      (mkWorld (server w) (calls w)
         (logs w ++ [entry_debug "mastodon_account data source read"])%list).
Proof.
  intros Herr. unfold AccountDataSource.Read. run_monad.
  fold data. fold diags. rewrite Herr. reflexivity.
Qed.

Lemma account_nil_record (s' : Server) :
  AccountDataSource.client d = Some c ->
  HasError diags = false ->
  api_AccountLookup c username (server w) = (s', (None, None)) ->
  AccountDataSource.Read d req resp w
  = Panicked nil_dereference
      (mkWorld s' (calls w ++ [CallAccountLookup c username])%list
         (logs w ++ [entry_debug "mastodon_account data source read"])%list).
Proof.
  intros Hc Hd Hl. unfold AccountDataSource.Read, Client_AccountLookup.
  run_monad. fold data. fold diags. rewrite Hd, Hc. simpl.
  fold username. rewrite Hl. reflexivity.
Qed.

End AccountFailures.

(** X7: when the remote call of Create, Update or Delete returns an error,
    the operation reports one "Client Error" that carries the text of the
    error and leaves the state it was handed unchanged, after exactly one
    remote call.  The error of Update reads "Unable to read post". *)
Theorem post_write_error_keeps_state :
  forall (Server : Type) (api : MastodonAPI Server) (lib : bluemonday.Library)
         (r : PostResource.PostResource) (c : mastodon.Client)
         (req : PostResource.Request) (resp : PostResource.Response)
         (w : World Server),
    let data := Get_data (PostResource.Source req) in
    let id := String_ValueString (PostResource.Id data) in
    let diags := Append (PostResource.Diagnostics resp)
                        (Get_diags (PostResource.Source req)) in
    PostResource.client r = Some c ->
    HasError diags = false ->
    (forall s' post e,
        api_PostStatus c (PostResource.toot_of data) (server w)
        = (s', (post, Some e)) ->
        exists w',
          PostResource.Create r req resp w
          = Returned
              (PostResource.mkResponse (PostResource.State resp)
                 (AddError diags "Client Error"
                    ("Unable to create post, got error: " +:+ e))) w'
          /\ calls w'
             = (calls w ++ [CallPostStatus c (PostResource.toot_of data)])%list)
    /\ (forall s' post e,
        api_UpdateStatus c (PostResource.toot_of data) id (server w)
        = (s', (post, Some e)) ->
        exists w',
          PostResource.Update r req resp w
          = Returned
              (PostResource.mkResponse (PostResource.State resp)
                 (AddError diags "Client Error"
                    ("Unable to read post, got error: " +:+ e))) w'
          /\ calls w'
             = (calls w
                ++ [CallUpdateStatus c (PostResource.toot_of data) id])%list)
    /\ (forall s' e,
        Bool_ValueBool (PostResource.PreserveOnDestroy data) = false ->
        api_DeleteStatus c id (server w) = (s', Some e) ->
        exists w',
          PostResource.Delete r req resp w
          = Returned
              (PostResource.mkResponse (PostResource.State resp)
                 (AddError diags "Client Error"
                    ("Unable to delete post, got error: " +:+ e))) w'
          /\ calls w' = (calls w ++ [CallDeleteStatus c id])%list).
Proof.
  intros Server api lib r c req resp w data id diags Hc Hd.
  split; [|split].
  - intros s' post e Hcall. eexists. split.
    + apply (post_create_error r c req resp w Hd Hc s' post e Hcall).
    + reflexivity.
  - intros s' post e Hcall. eexists. split.
    + apply (post_update_error r c req resp w Hd Hc s' post e Hcall).
    + reflexivity.
  - intros s' e Hp Hcall. eexists. split.
    + apply (post_delete_remote r c req resp w Hd Hc s' (Some e) Hp Hcall).
    + reflexivity.
Qed.

Lemma post_write_error_keeps_state_witness :
  (exists w',
      @PostResource.Create unit Examples.failing_client stripping_policy
        Examples.post_resource (Examples.request (Examples.plan "Hello"))
        Examples.absent (mkWorld tt [] [])
      = Returned
          (PostResource.mkResponse None
             (AddError [] "Client Error"
                ("Unable to create post, got error: " +:+ Examples.unavailable)))
          w'
      /\ calls w'
         = [CallPostStatus Examples.client
              (PostResource.toot_of (Examples.plan "Hello"))])
  /\ (exists w',
        @PostResource.Update unit Examples.failing_client stripping_policy
          Examples.post_resource
          (Examples.request (Examples.stored "Hello again" false))
          (Examples.present (Examples.stored "Hello" false)) (mkWorld tt [] [])
        = Returned
            (PostResource.mkResponse (Some (Examples.stored "Hello" false))
               (AddError [] "Client Error"
                  ("Unable to read post, got error: " +:+ Examples.unavailable)))
            w'
        /\ calls w'
           = [CallUpdateStatus Examples.client
                (PostResource.toot_of (Examples.stored "Hello again" false))
                "100"])
  /\ (exists w',
        @PostResource.Delete unit Examples.failing_client
          Examples.post_resource
          (Examples.request (Examples.stored "Hello" false))
          (Examples.present (Examples.stored "Hello" false)) (mkWorld tt [] [])
        = Returned
            (PostResource.mkResponse (Some (Examples.stored "Hello" false))
               (AddError [] "Client Error"
                  ("Unable to delete post, got error: " +:+ Examples.unavailable)))
            w'
        /\ calls w' = [CallDeleteStatus Examples.client "100"]).
Proof.
  split; [|split].
  - apply (proj1 (post_write_error_keeps_state unit Examples.failing_client
        stripping_policy Examples.post_resource Examples.client
        (Examples.request (Examples.plan "Hello")) Examples.absent
        (mkWorld tt [] []) eq_refl eq_refl) tt None Examples.unavailable eq_refl).
  - apply (proj1 (proj2 (post_write_error_keeps_state unit
        Examples.failing_client stripping_policy Examples.post_resource
        Examples.client (Examples.request (Examples.stored "Hello again" false))
        (Examples.present (Examples.stored "Hello" false))
        (mkWorld tt [] []) eq_refl eq_refl)) tt None Examples.unavailable
        eq_refl).
  - apply (proj2 (proj2 (post_write_error_keeps_state unit
        Examples.failing_client stripping_policy Examples.post_resource
        Examples.client (Examples.request (Examples.stored "Hello" false))
        (Examples.present (Examples.stored "Hello" false))
        (mkWorld tt [] []) eq_refl eq_refl)) tt Examples.unavailable
        eq_refl eq_refl).
Defined.

(** X8: an operation whose decoding of the plan, state or configuration
    reports an error returns at once: Create, Read, Update and Delete of the
    post resource and Read of the account data source make no remote call,
    leave state and server as they were and pass the decoding diagnostics
    on.  They need no client for this: an adapter that was never configured
    returns the same way. *)
Theorem decode_error_stops_operation :
  (forall (Server : Type) (api : MastodonAPI Server) (lib : bluemonday.Library)
          (r : PostResource.PostResource) (req : PostResource.Request)
          (resp : PostResource.Response) (w : World Server),
      let diags := Append (PostResource.Diagnostics resp)
                          (Get_diags (PostResource.Source req)) in
      let out := PostResource.mkResponse (PostResource.State resp) diags in
      HasError diags = true ->
      PostResource.Create r req resp w = Returned out w
      /\ PostResource.Read r req resp w = Returned out w
      /\ PostResource.Update r req resp w = Returned out w
      /\ PostResource.Delete r req resp w = Returned out w)
  /\ (forall (Server : Type) (api : MastodonAPI Server)
             (d : AccountDataSource.AccountDataSource)
             (req : AccountDataSource.ReadRequest)
             (resp : AccountDataSource.ReadResponse) (w : World Server),
      let diags := Append (AccountDataSource.Diagnostics resp)
                          (Get_diags (AccountDataSource.Config req)) in
      HasError diags = true ->
      exists w',
        AccountDataSource.Read d req resp w
        = Returned
            (AccountDataSource.mkReadResponse (AccountDataSource.State resp)
               diags) w'
        /\ calls w' = calls w
        /\ server w' = server w).
Proof.
  split.
  - intros Server api lib r req resp w diags out Herr.
    apply (post_decode_error r req resp w Herr).
  - intros Server api d req resp w diags Herr. eexists. split.
    + apply (account_decode_error d req resp w Herr).
    + split; reflexivity.
Qed.

Lemma decode_error_stops_operation_witness :
  (let out := PostResource.mkResponse
                (Some (Examples.stored "Hello" false)) Examples.decode_failure in
   let w := RefServer.world Examples.server_with_post in
   let req := Examples.failed_request (Examples.stored "Hello" false) in
   let resp := Examples.present (Examples.stored "Hello" false) in
   PostResource.Create Examples.unconfigured req resp w = Returned out w
   /\ PostResource.Read Examples.unconfigured req resp w = Returned out w
   /\ PostResource.Update Examples.unconfigured req resp w = Returned out w
   /\ PostResource.Delete Examples.unconfigured req resp w = Returned out w)
  /\ (exists w',
        AccountDataSource.Read AccountDataSource.NewAccountDataSource
          (AccountDataSource.mkReadRequest
             (mkDecoded
                (Get_data (AccountDataSource.Config
                             (Examples.account_request "user@host")))
                Examples.decode_failure))
          Examples.no_account (RefServer.world RefServer.initial)
        = Returned (AccountDataSource.mkReadResponse None Examples.decode_failure)
            w'
        /\ calls w' = []
        /\ server w' = RefServer.initial).
Proof.
  split.
  - apply (proj1 decode_error_stops_operation RefServer.State RefServer.api
             stripping_policy Examples.unconfigured
             (Examples.failed_request (Examples.stored "Hello" false))
             (Examples.present (Examples.stored "Hello" false))
             (RefServer.world Examples.server_with_post) eq_refl).
  - apply (proj2 decode_error_stops_operation RefServer.State RefServer.api
             AccountDataSource.NewAccountDataSource
             (AccountDataSource.mkReadRequest
                (mkDecoded
                   (Get_data (AccountDataSource.Config
                                (Examples.account_request "user@host")))
                   Examples.decode_failure))
             Examples.no_account (RefServer.world RefServer.initial) eq_refl).
Defined.

(** ** The post resource: the state it writes *)

(** X9: a successful Create, Update or Read writes a state whose id,
    created_at, account, content (sanitized), visibility and sensitive are
    those of the status the server returned, not those of the plan or of the
    prior state.  preserve_on_destroy is never taken from the server: Create
    and Update keep the plan's value, Read keeps the prior value and replaces
    a null by false.  Create sends the plan's content, visibility and
    sensitive flag and nothing else; Update sends them under the plan's id. *)
Theorem post_state_after_success :
  forall (Server : Type) (api : MastodonAPI Server) (lib : bluemonday.Library)
         (r : PostResource.PostResource) (c : mastodon.Client)
         (req : PostResource.Request) (resp : PostResource.Response)
         (w : World Server),
    let data := Get_data (PostResource.Source req) in
    let id := String_ValueString (PostResource.Id data) in
    let diags := Append (PostResource.Diagnostics resp)
                        (Get_diags (PostResource.Source req)) in
    let toot :=
      mastodon.mkToot (String_ValueString (PostResource.Content data))
        (String_ValueString (PostResource.Visibility data))
        (Bool_ValueBool (PostResource.Sensitive data)) in
    PostResource.client r = Some c ->
    HasError diags = false ->
    (forall s' post,
        api_PostStatus c toot (server w) = (s', (Some post, None)) ->
        exists st w',
          PostResource.Create r req resp w
          = Returned (PostResource.mkResponse (Some st) diags) w'
          /\ taken_from st post
          /\ PostResource.PreserveOnDestroy st
             = PostResource.PreserveOnDestroy data
          /\ calls w' = (calls w ++ [CallPostStatus c toot])%list)
    /\ (forall s' post,
        api_UpdateStatus c toot id (server w) = (s', (Some post, None)) ->
        exists st w',
          PostResource.Update r req resp w
          = Returned (PostResource.mkResponse (Some st) diags) w'
          /\ taken_from st post
          /\ PostResource.PreserveOnDestroy st
             = PostResource.PreserveOnDestroy data
          /\ calls w' = (calls w ++ [CallUpdateStatus c toot id])%list)
    /\ (forall s' post,
        api_GetStatus c id (server w) = (s', (Some post, None)) ->
        exists st w',
          PostResource.Read r req resp w
          = Returned (PostResource.mkResponse (Some st) diags) w'
          /\ taken_from st post
          /\ PostResource.PreserveOnDestroy st
             = (if Bool_IsNull (PostResource.PreserveOnDestroy data)
                then types.BoolValue false
                else PostResource.PreserveOnDestroy data)
          /\ Bool_IsNull (PostResource.PreserveOnDestroy st) = false
          /\ calls w' = (calls w ++ [CallGetStatus c id])%list).
Proof.
  intros Server api lib r c req resp w data id diags toot Hc Hd.
  split; [|split].
  - intros s' post Hcall. eexists _, _. split.
    + apply (post_create_success r c req resp w Hd Hc s' post Hcall).
    + split; [repeat split|]. split; reflexivity.
  - intros s' post Hcall. eexists _, _. split.
    + apply (post_update_success r c req resp w Hd Hc s' post Hcall).
    + split; [repeat split|]. split; reflexivity.
  - intros s' post Hcall. eexists _, _. split.
    + apply (post_read_success_state r c req resp w Hd Hc s' post Hcall).
    + split; [repeat split|]. split; [reflexivity|]. split; [|reflexivity].
      cbn [PostResource.PreserveOnDestroy]. fold data.
      destruct (PostResource.PreserveOnDestroy data); reflexivity.
Qed.

Lemma post_state_after_success_witness :
  exists st w',
    PostResource.Read Examples.post_resource
      (Examples.request (Examples.imported "100"))
      (Examples.present (Examples.imported "100"))
      (RefServer.world Examples.server_with_post)
    = Returned (PostResource.mkResponse (Some st) []) w'
    /\ taken_from st
         (RefServer.status_of "100"
            (mastodon.mkToot "First Test Post" "public" false))
    /\ PostResource.PreserveOnDestroy st = types.BoolValue false
    /\ Bool_IsNull (PostResource.PreserveOnDestroy st) = false
    /\ calls w' = [CallGetStatus Examples.client "100"].
Proof.
  apply (proj2 (proj2 (post_state_after_success RefServer.State RefServer.api
           stripping_policy Examples.post_resource Examples.client
           (Examples.request (Examples.imported "100"))
           (Examples.present (Examples.imported "100"))
           (RefServer.world Examples.server_with_post) eq_refl eq_refl))
           Examples.server_with_post
           (RefServer.status_of "100"
              (mastodon.mkToot "First Test Post" "public" false)) eq_refl).
Defined.

(** X10: reading does not drift.  A Read that follows a Read, or a Create
    whose plan sets preserve_on_destroy, leaves the state exactly as it was
    when the server returns the same status again. *)
Theorem post_read_is_stable :
  forall (Server : Type) (api : MastodonAPI Server) (lib : bluemonday.Library)
         (r : PostResource.PostResource) (c : mastodon.Client)
         (w : World Server) (s1 s2 : Server) (post : mastodon.Status),
    PostResource.client r = Some c ->
    api_GetStatus c (mastodon.Status_ID post) s1 = (s2, (Some post, None)) ->
    (forall prior : PostResource.PostResourceModel,
        api_GetStatus c (String_ValueString (PostResource.Id prior)) (server w)
        = (s1, (Some post, None)) ->
        exists st w1 w2,
          PostResource.Read r
            (PostResource.mkRequest (mkDecoded prior []))
            (PostResource.mkResponse (Some prior) []) w
          = Returned (PostResource.mkResponse (Some st) []) w1
          /\ PostResource.Read r
               (PostResource.mkRequest (mkDecoded st []))
               (PostResource.mkResponse (Some st) []) w1
             = Returned (PostResource.mkResponse (Some st) []) w2)
    /\ (forall plan : PostResource.PostResourceModel,
        Bool_IsNull (PostResource.PreserveOnDestroy plan) = false ->
        api_PostStatus c (PostResource.toot_of plan) (server w)
        = (s1, (Some post, None)) ->
        exists st w1 w2,
          PostResource.Create r
            (PostResource.mkRequest (mkDecoded plan []))
            (PostResource.mkResponse None []) w
          = Returned (PostResource.mkResponse (Some st) []) w1
          /\ PostResource.Read r
               (PostResource.mkRequest (mkDecoded st []))
               (PostResource.mkResponse (Some st) []) w1
             = Returned (PostResource.mkResponse (Some st) []) w2).
Proof.
  intros Server api lib r c w s1 s2 post Hc Hagain. split.
  - intros prior Hget.
    pose proof (post_read_success_state r c
                  (PostResource.mkRequest (mkDecoded prior []))
                  (PostResource.mkResponse (Some prior) []) w
                  eq_refl Hc s1 post Hget) as Hfirst.
    cbn [Get_data Get_diags PostResource.Source PostResource.Diagnostics Append]
      in Hfirst.
    match type of Hfirst with
    | _ = Returned (PostResource.mkResponse (Some ?st) _) ?w1 =>
        pose proof (post_read_success_state r c
                      (PostResource.mkRequest (mkDecoded st []))
                      (PostResource.mkResponse (Some st) []) w1
                      eq_refl Hc s2 post Hagain) as Hsecond
    end.
    eexists _, _, _. split; [exact Hfirst|].
    rewrite Hsecond.
    cbn [Get_data Get_diags PostResource.Source PostResource.Diagnostics
         PostResource.PreserveOnDestroy Append].
    destruct (PostResource.PreserveOnDestroy prior); reflexivity.
  - intros plan Hset Hpost.
    pose proof (post_create_success r c
                  (PostResource.mkRequest (mkDecoded plan []))
                  (PostResource.mkResponse None []) w
                  eq_refl Hc s1 post Hpost) as Hfirst.
    cbn [Get_data Get_diags PostResource.Source PostResource.Diagnostics Append]
      in Hfirst.
    match type of Hfirst with
    | _ = Returned (PostResource.mkResponse (Some ?st) _) ?w1 =>
        pose proof (post_read_success_state r c
                      (PostResource.mkRequest (mkDecoded st []))
                      (PostResource.mkResponse (Some st) []) w1
                      eq_refl Hc s2 post Hagain) as Hsecond
    end.
    eexists _, _, _. split; [exact Hfirst|].
    rewrite Hsecond.
    cbn [Get_data Get_diags PostResource.Source PostResource.Diagnostics
         PostResource.PreserveOnDestroy PostResource.with_post Append].
    rewrite Hset. reflexivity.
Qed.

Lemma post_read_is_stable_witness :
  (exists st w1 w2,
      PostResource.Read Examples.post_resource
        (PostResource.mkRequest (mkDecoded (Examples.imported "100") []))
        (PostResource.mkResponse (Some (Examples.imported "100")) [])
        (RefServer.world Examples.server_with_post)
      = Returned (PostResource.mkResponse (Some st) []) w1
      /\ PostResource.Read Examples.post_resource
           (PostResource.mkRequest (mkDecoded st []))
           (PostResource.mkResponse (Some st) []) w1
         = Returned (PostResource.mkResponse (Some st) []) w2)
  /\ (exists st w1 w2,
        PostResource.Create Examples.post_resource
          (PostResource.mkRequest (mkDecoded (Examples.plan "Hello") []))
          (PostResource.mkResponse None []) (RefServer.world RefServer.initial)
        = Returned (PostResource.mkResponse (Some st) []) w1
        /\ PostResource.Read Examples.post_resource
             (PostResource.mkRequest (mkDecoded st []))
             (PostResource.mkResponse (Some st) []) w1
           = Returned (PostResource.mkResponse (Some st) []) w2).
Proof.
  split.
  - eapply (proj1 (post_read_is_stable RefServer.State RefServer.api
              stripping_policy Examples.post_resource Examples.client
              (RefServer.world Examples.server_with_post)
              Examples.server_with_post Examples.server_with_post
              (RefServer.status_of "100"
                 (mastodon.mkToot "First Test Post" "public" false))
              eq_refl eq_refl) (Examples.imported "100")).
    reflexivity.
  - refine (proj2 (post_read_is_stable RefServer.State RefServer.api
             stripping_policy Examples.post_resource Examples.client
             (RefServer.world RefServer.initial)
             (api_PostStatus Examples.client
                (PostResource.toot_of (Examples.plan "Hello"))
                RefServer.initial).1
             (api_PostStatus Examples.client
                (PostResource.toot_of (Examples.plan "Hello"))
                RefServer.initial).1
             (RefServer.status_of "100"
                (mastodon.mkToot "Hello" "public" false))
             eq_refl _) (Examples.plan "Hello") eq_refl _);
      vm_compute; reflexivity.
Defined.

(** ** The post resource: import *)

(** X11: importing a post by its identifier writes a state that holds the
    identifier and nothing else, without a diagnostic.  The Read that follows
    fills in every attribute from the server and sets preserve_on_destroy to
    false; its result is the one Read gives from any prior state with that
    identifier and preserve_on_destroy false, such as the state a Create
    left behind. *)
Theorem import_then_read_rebuilds_state :
  forall (Server : Type) (api : MastodonAPI Server) (lib : bluemonday.Library)
         (r : PostResource.PostResource) (c : mastodon.Client)
         (id : string) (w : World Server) (s' : Server)
         (post : mastodon.Status),
    let st0 :=
      PostResource.mkModel (types.StringValue id) types.StringNull
        types.StringNull types.StringNull types.StringNull types.BoolNull
        types.BoolNull in
    let imported :=
      PostResource.ImportState r (PostResource.mkImportStateRequest id)
        (PostResource.mkResponse None []) in
    PostResource.client r = Some c ->
    api_GetStatus c id (server w) = (s', (Some post, None)) ->
    imported = PostResource.mkResponse (Some st0) []
    /\ exists st w',
        PostResource.Read r (PostResource.mkRequest (mkDecoded st0 []))
          imported w
        = Returned (PostResource.mkResponse (Some st) []) w'
        /\ taken_from st post
        /\ PostResource.PreserveOnDestroy st = types.BoolValue false
        /\ forall prior : PostResource.PostResourceModel,
             PostResource.Id prior = types.StringValue id ->
             PostResource.PreserveOnDestroy prior = types.BoolValue false ->
             PostResource.Read r
               (PostResource.mkRequest (mkDecoded prior []))
               (PostResource.mkResponse (Some prior) []) w
             = Returned (PostResource.mkResponse (Some st) []) w'.
Proof.
  intros Server api lib r c id w s' post st0 imported Hc Hget.
  split; [reflexivity|].
  pose proof (post_read_success_state r c
                (PostResource.mkRequest (mkDecoded st0 [])) imported w
                eq_refl Hc s' post Hget) as Hread.
  eexists _, _. split; [exact Hread|].
  split; [repeat split|]. split; [reflexivity|].
  intros prior Hid Hp.
  rewrite (post_read_success_state r c
             (PostResource.mkRequest (mkDecoded prior []))
             (PostResource.mkResponse (Some prior) []) w eq_refl Hc s' post).
  - cbn [Get_data Get_diags PostResource.Source PostResource.Diagnostics Append].
    rewrite Hid, Hp. reflexivity.
  - cbn [Get_data PostResource.Source]. rewrite Hid. exact Hget.
Qed.

Lemma import_then_read_rebuilds_state_witness :
  PostResource.ImportState Examples.post_resource
    (PostResource.mkImportStateRequest "100") (PostResource.mkResponse None [])
  = PostResource.mkResponse (Some (Examples.imported "100")) []
  /\ exists st w',
      PostResource.Read Examples.post_resource
        (PostResource.mkRequest (mkDecoded (Examples.imported "100") []))
        (PostResource.ImportState Examples.post_resource
           (PostResource.mkImportStateRequest "100")
           (PostResource.mkResponse None []))
        (RefServer.world Examples.server_with_post)
      = Returned (PostResource.mkResponse (Some st) []) w'
      /\ taken_from st
           (RefServer.status_of "100"
              (mastodon.mkToot "First Test Post" "public" false))
      /\ PostResource.PreserveOnDestroy st = types.BoolValue false
      /\ forall prior : PostResource.PostResourceModel,
           PostResource.Id prior = types.StringValue "100" ->
           PostResource.PreserveOnDestroy prior = types.BoolValue false ->
           PostResource.Read Examples.post_resource
             (PostResource.mkRequest (mkDecoded prior []))
             (PostResource.mkResponse (Some prior) [])
             (RefServer.world Examples.server_with_post)
           = Returned (PostResource.mkResponse (Some st) []) w'.
Proof.
  apply (import_then_read_rebuilds_state RefServer.State RefServer.api
           stripping_policy Examples.post_resource Examples.client "100"
           (RefServer.world Examples.server_with_post)
           Examples.server_with_post
           (RefServer.status_of "100"
              (mastodon.mkToot "First Test Post" "public" false))
           eq_refl eq_refl).
Defined.

(** ** The adapters: a call that returns neither a record nor an error *)

(** X12: Create, Read and Update of the post resource and Read of the
    account data source read the record the client returned as soon as the
    error is nil.  Should a call return a nil record together with a nil
    error, they panic on a nil dereference after the remote call has been
    made: the call is on record, the server has stepped, and nothing is
    written to the state. *)
Theorem nil_record_without_error_panics :
  (forall (Server : Type) (api : MastodonAPI Server) (lib : bluemonday.Library)
          (r : PostResource.PostResource) (c : mastodon.Client)
          (req : PostResource.Request) (resp : PostResource.Response)
          (w : World Server),
      let data := Get_data (PostResource.Source req) in
      let id := String_ValueString (PostResource.Id data) in
      let toot := PostResource.toot_of data in
      PostResource.client r = Some c ->
      HasError (Append (PostResource.Diagnostics resp)
                       (Get_diags (PostResource.Source req))) = false ->
      (forall s',
          api_PostStatus c toot (server w) = (s', (None, None)) ->
          PostResource.Create r req resp w
          = Panicked nil_dereference
              (mkWorld s' (calls w ++ [CallPostStatus c toot])%list (logs w)))
      /\ (forall s',
          api_GetStatus c id (server w) = (s', (None, None)) ->
          PostResource.Read r req resp w
          = Panicked nil_dereference
              (mkWorld s' (calls w ++ [CallGetStatus c id])%list (logs w)))
      /\ (forall s',
          api_UpdateStatus c toot id (server w) = (s', (None, None)) ->
          PostResource.Update r req resp w
          = Panicked nil_dereference
              (mkWorld s' (calls w ++ [CallUpdateStatus c toot id])%list
                 (logs w))))
  /\ (forall (Server : Type) (api : MastodonAPI Server)
             (d : AccountDataSource.AccountDataSource) (c : mastodon.Client)
             (req : AccountDataSource.ReadRequest)
             (resp : AccountDataSource.ReadResponse) (w : World Server)
             (s' : Server),
      let username :=
        String_ValueString
          (AccountDataSource.Username
             (Get_data (AccountDataSource.Config req))) in
      AccountDataSource.client d = Some c ->
      HasError (Append (AccountDataSource.Diagnostics resp)
                       (Get_diags (AccountDataSource.Config req))) = false ->
      api_AccountLookup c username (server w) = (s', (None, None)) ->
      AccountDataSource.Read d req resp w
      = Panicked nil_dereference
          (mkWorld s' (calls w ++ [CallAccountLookup c username])%list
             (logs w
              ++ [entry_debug "mastodon_account data source read"])%list)).
Proof.
  split.
  - intros Server api lib r c req resp w data id toot Hc Hd.
    apply (post_nil_status r c req resp w Hd Hc).
  - intros Server api d c req resp w s' username Hc Hd Hl.
    apply (account_nil_record d c req resp w s' Hc Hd Hl).
Qed.

Lemma nil_record_without_error_panics_witness :
  @PostResource.Read unit Examples.silent_client stripping_policy
    Examples.post_resource
    (Examples.request (Examples.stored "Hello" false))
    (Examples.present (Examples.stored "Hello" false)) (mkWorld tt [] [])
  = Panicked nil_dereference
      (mkWorld tt [CallGetStatus Examples.client "100"] [])
  /\ @AccountDataSource.Read unit Examples.silent_client
       Examples.account_source (Examples.account_request "user@host")
       Examples.no_account (mkWorld tt [] [])
     = Panicked nil_dereference
         (mkWorld tt [CallAccountLookup Examples.client "user@host"]
            [entry_debug "mastodon_account data source read"]).
Proof.
  split.
  - apply (proj1 (proj2 (proj1 nil_record_without_error_panics unit
        Examples.silent_client stripping_policy Examples.post_resource
        Examples.client (Examples.request (Examples.stored "Hello" false))
        (Examples.present (Examples.stored "Hello" false)) (mkWorld tt [] [])
        eq_refl eq_refl)) tt eq_refl).
  - apply (proj2 nil_record_without_error_panics unit Examples.silent_client
        Examples.account_source Examples.client
        (Examples.account_request "user@host") Examples.no_account
        (mkWorld tt [] []) tt eq_refl eq_refl eq_refl).
Defined.

(** ** From the provider to the adapters *)

Lemma Configure_returned_without_error {Server : Type} `{MastodonAPI Server}
    (env : gmap string string) (req : provider.ConfigureRequest)
    (w w' : World Server) (resp : provider.ConfigureResponse) :
  MastodonProvider_Configure env req provider.empty w = Returned resp w' ->
  HasError (provider.Diagnostics resp) = false ->
  let c := client_of (Configure_resolve env (Get_data (provider.Config req)) []).1 in
  provider.DataSourceData resp = any_Client (Some c)
  /\ provider.ResourceData resp = any_Client (Some c)
  /\ calls w' = (calls w ++ [CallGetAccountCurrentUser c])%list.
Proof.
  intros Hrun Hno c.
  pose proof (checks_pass_spec env req) as Hspec.
  destruct (checks_pass env req) eqn:Hpass; cbn [negb] in Hspec.
  - assert (Hv : valid_combination
                   (Configure_resolve env (Get_data (provider.Config req)) []).1
                 = true).
    { unfold checks_pass in Hpass. apply andb_true_iff in Hpass as [_ Hv].
      exact Hv. }
    destruct (api_GetAccountCurrentUser c (server w)) as [s' [user err]] eqn:Hc.
    rewrite (Configure_accepts env req provider.empty w Hspec
               (valid_has_credentials _ Hv) s' user err Hc) in Hrun.
    destruct user as [user|]; [|discriminate Hrun].
    destruct err as [e|].
    + rewrite HasError_AddError in Hrun. injection Hrun as <- _.
      cbn [with_Diagnostics provider.Diagnostics] in Hno.
      rewrite HasError_AddError in Hno. discriminate.
    + rewrite Hspec in Hrun. injection Hrun as <- <-. repeat split.
  - rewrite (Configure_rejects env req provider.empty w Hspec) in Hrun.
    injection Hrun as <- _.
    change (HasError
              (Configure_resolve env (Get_data (provider.Config req))
                 (Append (provider.Diagnostics provider.empty)
                    (Get_diags (provider.Config req)))).2 = false) in Hno.
    rewrite Hspec in Hno. discriminate.
Qed.

Lemma account_read_first_call {Server : Type} `{MastodonAPI Server}
    (d : AccountDataSource.AccountDataSource) (c : mastodon.Client)
    (req : AccountDataSource.ReadRequest)
    (resp : AccountDataSource.ReadResponse) (w : World Server) :
  AccountDataSource.client d = Some c ->
  HasError (Append (AccountDataSource.Diagnostics resp)
                   (Get_diags (AccountDataSource.Config req))) = false ->
  calls (world_of (AccountDataSource.Read d req resp w))
  = (calls w
     ++ [CallAccountLookup c
           (String_ValueString
              (AccountDataSource.Username
                 (Get_data (AccountDataSource.Config req))))])%list.
Proof.
  intros Hc Hd. unfold AccountDataSource.Read, Client_AccountLookup.
  run_monad. rewrite Hd, Hc. simpl.
  destruct (api_AccountLookup c _ (server w)) as [s' [[a|] [e|]]];
    reflexivity.
Qed.

Lemma post_create_first_call {Server : Type} `{MastodonAPI Server}
    `{bluemonday.Library}
    (r : PostResource.PostResource) (c : mastodon.Client)
    (req : PostResource.Request) (resp : PostResource.Response)
    (w : World Server) :
  PostResource.client r = Some c ->
  HasError (Append (PostResource.Diagnostics resp)
                   (Get_diags (PostResource.Source req))) = false ->
  calls (world_of (PostResource.Create r req resp w))
  = (calls w
     ++ [CallPostStatus c
           (PostResource.toot_of (Get_data (PostResource.Source req)))])%list.
Proof.
  intros Hc Hd.
  unfold PostResource.Create, PostResource.decode, Client_PostStatus.
  simpl. rewrite Hd, Hc. run_monad.
  destruct (api_PostStatus c _ (server w)) as [s' [[a|] [e|]]];
    reflexivity.
Qed.

(** X13: the client the provider configured is the one the adapters call
    with.  When Configure returns without an error, configuring the account
    data source with its DataSourceData and the post resource with its
    ResourceData stores that client without a diagnostic, and the next
    operation of either adapter makes its remote call with the client built
    from the resolved host, client id, client secret and access token. *)
Theorem configured_client_reaches_adapters :
  forall (Server : Type) (api : MastodonAPI Server) (lib : bluemonday.Library)
         (env : gmap string string) (req : provider.ConfigureRequest)
         (w w1 : World Server) (resp : provider.ConfigureResponse),
    let c := client_of
               (Configure_resolve env (Get_data (provider.Config req)) []).1 in
    let d := AccountDataSource.Configure AccountDataSource.NewAccountDataSource
               (AccountDataSource.mkConfigureRequest
                  (provider.DataSourceData resp))
               (AccountDataSource.mkConfigureResponse []) in
    let p := PostResource.Configure PostResource.NewPostResource
               (PostResource.mkConfigureRequest (provider.ResourceData resp))
               (PostResource.mkConfigureResponse []) in
    MastodonProvider_Configure env req provider.empty w = Returned resp w1 ->
    HasError (provider.Diagnostics resp) = false ->
    d = (AccountDataSource.mkAccountDataSource (Some c),
         AccountDataSource.mkConfigureResponse [])
    /\ p = (PostResource.mkPostResource (Some c),
            PostResource.mkConfigureResponse [])
    /\ (forall areq : AccountDataSource.ReadRequest,
          HasError (Get_diags (AccountDataSource.Config areq)) = false ->
          calls (world_of
                   (AccountDataSource.Read d.1 areq
                      (AccountDataSource.mkReadResponse None []) w1))
          = (calls w
             ++ [CallGetAccountCurrentUser c;
                 CallAccountLookup c
                   (String_ValueString
                      (AccountDataSource.Username
                         (Get_data (AccountDataSource.Config areq))))])%list)
    /\ (forall preq : PostResource.Request,
          HasError (Get_diags (PostResource.Source preq)) = false ->
          calls (world_of
                   (PostResource.Create p.1 preq
                      (PostResource.mkResponse None []) w1))
          = (calls w
             ++ [CallGetAccountCurrentUser c;
                 CallPostStatus c
                   (PostResource.toot_of
                      (Get_data (PostResource.Source preq)))])%list).
Proof.
  intros Server api lib env req w w1 resp c d p Hrun Hno.
  destruct (Configure_returned_without_error env req w w1 resp Hrun Hno)
    as (Hds & Hrs & Hcalls).
  fold c in Hds, Hrs, Hcalls.
  assert (Hd : d = (AccountDataSource.mkAccountDataSource (Some c),
                    AccountDataSource.mkConfigureResponse []))
    by (subst d; rewrite Hds; reflexivity).
  assert (Hp : p = (PostResource.mkPostResource (Some c),
                    PostResource.mkConfigureResponse []))
    by (subst p; rewrite Hrs; reflexivity).
  split; [exact Hd|]. split; [exact Hp|]. split.
  - intros areq Ha. rewrite Hd. cbn [fst].
    rewrite (account_read_first_call
               (AccountDataSource.mkAccountDataSource (Some c)) c areq
               (AccountDataSource.mkReadResponse None []) w1 eq_refl).
    + rewrite Hcalls, <- app_assoc. reflexivity.
    + cbn [AccountDataSource.Diagnostics]. rewrite HasError_Append, Ha.
      reflexivity.
  - intros preq Hq. rewrite Hp. cbn [fst].
    rewrite (post_create_first_call
               (PostResource.mkPostResource (Some c)) c preq
               (PostResource.mkResponse None []) w1 eq_refl).
    + rewrite Hcalls, <- app_assoc. reflexivity.
    + cbn [PostResource.Diagnostics]. rewrite HasError_Append, Hq.
      reflexivity.
Qed.

Lemma configured_client_reaches_adapters_witness :
  PostResource.Configure PostResource.NewPostResource
    (PostResource.mkConfigureRequest (any_Client (Some Examples.client)))
    (PostResource.mkConfigureResponse [])
  = (PostResource.mkPostResource (Some Examples.client),
     PostResource.mkConfigureResponse [])
  /\ calls (world_of
             (AccountDataSource.Read Examples.account_source
                (Examples.account_request "user@host")
                (AccountDataSource.mkReadResponse None [])
                (world_of
                   (MastodonProvider_Configure Examples.no_env
                      (request_of Examples.token_config) provider.empty
                      (RefServer.world RefServer.initial)))))
     = [CallGetAccountCurrentUser Examples.client;
        CallAccountLookup Examples.client "user@host"].
Proof.
  destruct (configured_client_reaches_adapters RefServer.State RefServer.api
              stripping_policy Examples.no_env
              (request_of Examples.token_config)
              (RefServer.world RefServer.initial)
              (world_of
                 (MastodonProvider_Configure Examples.no_env
                    (request_of Examples.token_config) provider.empty
                    (RefServer.world RefServer.initial)))
              (provider.mkConfigureResponse []
                 (any_Client (Some Examples.client))
                 (any_Client (Some Examples.client))))
    as (_ & Hp & Ha & _).
  - vm_compute. reflexivity.
  - reflexivity.
  - split; [exact Hp|].
    exact (Ha (Examples.account_request "user@host") eq_refl).
Defined.

(** ** The identity function: reading an identity back *)

Lemma append_at_injective (u1 u2 s1 s2 : string) :
  has_at u1 = false -> has_at u2 = false ->
  u1 +:+ String "@" s1 = u2 +:+ String "@" s2 ->
  u1 = u2 /\ s1 = s2.
Proof.
  revert u2. induction u1 as [|a u1 IH]; intros [|b u2] H1 H2 Heq;
    cbn [String.append has_at] in *.
  - injection Heq as ->. split; reflexivity.
  - injection Heq as <- _. apply orb_false_iff in H2 as [H2 _].
    discriminate H2.
  - injection Heq as -> _. apply orb_false_iff in H1 as [H1 _].
    discriminate H1.
  - injection Heq as -> Heq.
    apply orb_false_iff in H1 as [_ H1]. apply orb_false_iff in H2 as [_ H2].
    destruct (IH u2 H1 H2 Heq) as [-> ->]. split; reflexivity.
Qed.

(** X14: an identity can be read back when the username holds no "@": two
    runs of the identity function on such usernames return the same text
    only for the same username and the same server.  Without that
    condition it cannot: ("a@b", "c") and ("a", "b@c") give the same
    identity. *)
Theorem identity_determines_its_arguments :
  (forall u1 s1 u2 s2 : string,
      has_at u1 = false -> has_at u2 = false ->
      identity_of u1 s1 = identity_of u2 s2 ->
      u1 = u2 /\ s1 = s2)
  /\ identity_of "a@b" "c" = identity_of "a" "b@c".
Proof.
  split; [|reflexivity].
  intros u1 s1 u2 s2 H1 H2 Heq. unfold identity_of in Heq.
  cbn [IdentityFunction_Run Arguments_Get2 function.Arguments function.Error
       function.Result] in Heq.
  injection Heq as Heq. apply (append_at_injective u1 u2 s1 s2 H1 H2 Heq).
Qed.

Lemma identity_determines_its_arguments_witness :
  "tedivm" = "tedivm" /\ "hachyderm.io" = "hachyderm.io".
Proof.
  apply (proj1 identity_determines_its_arguments
           "tedivm" "hachyderm.io" "tedivm" "hachyderm.io"
           eq_refl eq_refl eq_refl).
Defined.

(** ** Type names *)

Lemma append_suffix_injective (n a b : string) : n +:+ a = n +:+ b -> a = b.
Proof.
  induction n as [|ch n IH]; cbn [String.append]; intros Heq.
  - exact Heq.
  - injection Heq as Heq. apply IH. exact Heq.
Qed.

Lemma prefix_append (n a : string) : String.prefix n (n +:+ a) = true.
Proof.
  induction n as [|ch n IH]; simpl.
  - by destruct a.
  - destruct (ascii_dec ch ch); [exact IH|contradiction].
Qed.

(** X15: whatever type name the provider reports, the post resource and
    the account data source get type names that begin with it and differ
    from each other; for the name the provider does report, whatever its
    version, they are mastodon_post and mastodon_account. *)
Theorem adapter_type_names :
  (forall name : string,
      String.prefix name (PostResource.Metadata name) = true
      /\ String.prefix name (AccountDataSource.Metadata name) = true
      /\ PostResource.Metadata name <> AccountDataSource.Metadata name)
  /\ (forall (version : string) (resp : MetadataResponse),
        let m := MastodonProvider_Metadata (New version tt) resp in
        Version m = version
        /\ PostResource.Metadata (TypeName m) = "mastodon_post"
        /\ AccountDataSource.Metadata (TypeName m) = "mastodon_account").
Proof.
  split.
  - intros name. unfold PostResource.Metadata, AccountDataSource.Metadata.
    split; [apply prefix_append|]. split; [apply prefix_append|].
    intros Heq. apply append_suffix_injective in Heq. discriminate Heq.
  - intros version resp m. repeat split.
Qed.

(** ** Provider configuration: an empty string is a value *)

(** X16: an empty string written in the provider block is not treated as
    "not set": it takes precedence over the environment variable of the
    field, which then resolves to the empty string.  For host, client id and
    client secret Configure therefore fails before any remote call and
    reports the item as missing, even when the environment provides it. *)
Theorem configure_empty_string_hides_environment :
  forall (Server : Type) (api : MastodonAPI Server) (env : gmap string string)
         (req : provider.ConfigureRequest) (w : World Server) (f : Field),
    let data := Get_data (provider.Config req) in
    let r := (Configure_resolve env data []).1 in
    config_value f data = types.StringValue "" ->
    resolved_value f r = ""
    /\ forall m : Missing,
        missing_of_field f = Some m ->
        exists resp w',
          MastodonProvider_Configure env req provider.empty w = Returned resp w'
          /\ configure_failed resp
          /\ calls w' = calls w
          /\ missing_diagnostic m ∈ provider.Diagnostics resp.
Proof.
  intros Server api env req w f data r Hempty.
  set (diags0 := Append (provider.Diagnostics provider.empty)
                        (Get_diags (provider.Config req))).
  assert (Hres : resolved_value f r = "").
  { subst r. rewrite Configure_resolve_fst. unfold resolve_field.
    rewrite Hempty. reflexivity. }
  split; [exact Hres|]. intros m Hm.
  assert (Hmiss : is_missing m (Configure_resolve env data diags0).1 = true).
  { change (Configure_resolve env data diags0).1 with r.
    destruct f; try discriminate; injection Hm as <-; cbn [is_missing];
      cbn [resolved_value] in Hres; rewrite Hres; reflexivity. }
  assert (Hin : missing_diagnostic m ∈ (Configure_resolve env data diags0).2)
    by (apply Configure_resolve_missing; exact Hmiss).
  assert (Herr : HasError (Configure_resolve env data diags0).2 = true).
  { apply HasError_elem. exists (missing_diagnostic m).
    split; [exact Hin|reflexivity]. }
  pose proof (Configure_rejects env req provider.empty w Herr) as Hrun.
  eexists _, _. split; [exact Hrun|].
  split; [split; [exact Herr|split; reflexivity]|].
  split; [reflexivity|exact Hin].
Qed.

Lemma configure_empty_string_hides_environment_witness :
  Getenv Examples.token_env "MASTODON_HOST" = "mastodon.example"
  /\ resolved_value FieldHost
       (Configure_resolve Examples.token_env Examples.empty_host_config []).1
     = ""
  /\ exists resp w',
      MastodonProvider_Configure Examples.token_env
        (request_of Examples.empty_host_config) provider.empty
        (RefServer.world RefServer.initial) = Returned resp w'
      /\ configure_failed resp
      /\ calls w' = []
      /\ missing_diagnostic MissingHost ∈ provider.Diagnostics resp.
Proof.
  split; [reflexivity|].
  destruct (configure_empty_string_hides_environment RefServer.State
              RefServer.api Examples.token_env
              (request_of Examples.empty_host_config)
              (RefServer.world RefServer.initial) FieldHost eq_refl)
    as [Hres Hfail].
  split; [exact Hres|]. exact (Hfail MissingHost eq_refl).
Defined.
